(** * banking.klarna_kosma_integration.exception_handler

    A shallow embedding of [ExceptionHandler] (the classifier that turns a
    failed call to the banking provider into a logged, persisted and raised
    [BankingError]) and the properties its specification states about it.

    The Python code manipulates dynamically typed values decoded from JSON,
    writes to the error log and to the database, and leaves by raising.  The
    embedding therefore has
    - [value], the Python values that [json.loads] produces;
    - the Python operations the code applies to them ([dict.get],
      truthiness, [in], iteration, [+=], string formatting),
      each with the exception it raises on an operand of another type;
    - a writer/exception monad [M] whose trace lists, in program order, the
      log entries, the database writes, the commits and the raise. *)

From Stdlib Require Import ZArith String Ascii List Bool Lia Floats DecimalString.
Import ListNotations.
Open Scope string_scope.
Open Scope Z_scope.

#[local] Set Warnings "-register-all".

(** ** Python values *)

(** What [response.json()] can return.  A dict is the list of its items;
    [dict_lookup] below gives the value bound to a key. *)
Inductive value : Type :=
| VNone
| VBool (b : bool)
| VInt (n : Z)
| VFloat (f : float)
| VStr (s : string)
| VList (l : list value)
| VDict (items : list (string * value)).

Fixpoint dict_lookup (k : string) (items : list (string * value)) : option value :=
  match items with
  | [] => None
  | (k', v) :: rest => if String.eqb k k' then Some v else dict_lookup k rest
  end.

(** [bool(v)]. *)
Definition truthy (v : value) : bool :=
  match v with
  | VNone => false
  | VBool b => b
  | VInt n => negb (n =? 0)
  | VFloat f => negb (PrimFloat.eqb f 0%float)
  | VStr s => negb (String.eqb s "")
  | VList l => match l with [] => false | _ :: _ => true end
  | VDict items => match items with [] => false | _ :: _ => true end
  end.

(** [v == s] for a string literal [s]. *)
Definition eq_str (v : value) (s : string) : bool :=
  match v with VStr s' => String.eqb s' s | _ => false end.

(** [needle in hay] on two strings. *)
Fixpoint str_contains (needle hay : string) : bool :=
  String.prefix needle hay
  || match hay with
     | EmptyString => false
     | String _ rest => str_contains needle rest
     end.

(** The characters of a string, as Python iterates over them. *)
Definition chars (s : string) : list value :=
  map (fun c => VStr (String c EmptyString)) (list_ascii_of_string s).

(** [sep.join(parts)]. *)
Fixpoint join (sep : string) (parts : list string) : string :=
  match parts with
  | [] => ""
  | [p] => p
  | p :: rest => p ++ sep ++ join sep rest
  end.

(** ** The caught failure *)

(** [requests.Response], as far as the handler reads it.  [headers] is the
    lookup of the header mapping, [json] is [None] when [response.json()]
    raises on a body that is not JSON. *)
Record Response : Type := {
  status_code : Z;
  headers : string -> option string;
  content : string;
  json : option value
}.

(** The exception handed to the handler: a [requests.exceptions.HTTPError]
    with its [response] attribute (which [requests] leaves [None] when the
    error is built without one), or an exception of any other class. *)
Inductive caught : Type :=
| HTTPError (response : option Response)
| OtherException (name : string).

Definition isinstance_HTTPError (e : caught) : bool :=
  match e with HTTPError _ => true | OtherException _ => false end.

(** [e.response], for the exceptions whose class has the attribute. *)
Definition http_response (e : caught) : option Response :=
  match e with HTTPError r => r | OtherException _ => None end.

(** ** Exceptions, events and the monad *)

Inductive exn : Type :=
| BankingError (title : string) (msg : value)
| Reraised (e : caught)
| AttributeError (attr : string)
| TypeError
| JSONDecodeError
| RuntimeError.

(** The [message] argument of [frappe.log_error]. *)
Inductive log_message : Type :=
| Traceback (active : option caught)
| RawContent (body : string)
| JsonDumps (v : value).

Inductive event : Type :=
| LogError (title : string) (message : log_message)
| SetValue (doctype name fieldname : string) (v : value)
| Commit
| Raise (e : exn).

Inductive outcome (A : Type) : Type :=
| Returned (a : A)
| Raised (e : exn).
Arguments Returned {A} a.
Arguments Raised {A} e.

Definition M (A : Type) : Type := (list event * outcome A)%type.

Definition ret {A} (a : A) : M A := ([], Returned a).

Definition bind {A B} (m : M A) (k : A -> M B) : M B :=
  match m with
  | (t, Returned a) => let '(t', r) := k a in ((t ++ t')%list, r)
  | (t, Raised e) => (t, Raised e)
  end.

Definition emit (ev : event) : M unit := ([ev], Returned tt).

Definition raise {A} (e : exn) : M A := ([Raise e], Raised e).

Notation "x <- m ;; k" := (bind m (fun x => k))
  (at level 61, m at next level, right associativity).
Notation "m ;; k" := (bind m (fun _ => k))
  (at level 61, right associativity).

Fixpoint mapM {A B} (f : A -> M B) (l : list A) : M (list B) :=
  match l with
  | [] => ret []
  | a :: rest => b <- f a ;; bs <- mapM f rest ;; ret (b :: bs)
  end.

Definition trace {A} (m : M A) : list event := fst m.
Definition result {A} (m : M A) : outcome A := snd m.

(** ** Python operations that can raise *)

(** [v.get(k, default)]: only a dict has the method. *)
Definition dict_get (v : value) (k : string) (default : value) : M value :=
  match v with
  | VDict items =>
      ret (match dict_lookup k items with Some x => x | None => default end)
  | _ => raise (AttributeError "get")
  end.

(** [k in v] for a string [k]. *)
Definition py_in (k : string) (v : value) : M bool :=
  match v with
  | VDict items =>
      ret (match dict_lookup k items with Some _ => true | None => false end)
  | VList l => ret (existsb (fun x => eq_str x k) l)
  | VStr s => ret (str_contains k s)
  | _ => raise TypeError
  end.

(** [iter(v)], run to the end. *)
Definition py_iter (v : value) : M (list value) :=
  match v with
  | VList l => ret l
  | VDict items => ret (map (fun kv => VStr (fst kv)) items)
  | VStr s => ret (chars s)
  | _ => raise TypeError
  end.

(** [v += s] for a string [s]: concatenation on a string, [extend] on a
    list, [TypeError] otherwise. *)
Definition iadd_str (v : value) (s : string) : M value :=
  match v with
  | VStr m => ret (VStr (m ++ s))
  | VList l => ret (VList (l ++ chars s))
  | _ => raise TypeError
  end.

(** Attribute reads and the [json()] call on what may be [None]. *)
Definition get_status_code (response : option Response) : M Z :=
  match response with
  | Some r => ret (status_code r)
  | None => raise (AttributeError "status_code")
  end.

Definition get_content (response : option Response) : M string :=
  match response with
  | Some r => ret (content r)
  | None => raise (AttributeError "content")
  end.

Definition get_headers (response : option Response) : M (string -> option string) :=
  match response with
  | Some r => ret (headers r)
  | None => raise (AttributeError "headers")
  end.

Definition call_json (response : option Response) : M value :=
  match response with
  | Some r =>
      match json r with
      | Some v => ret v
      | None => raise JSONDecodeError
      end
  | None => raise (AttributeError "json")
  end.

(** [headers.get(k, default)]. *)
Definition headers_get (h : string -> option string) (k default : string) : string :=
  match h k with Some v => v | None => default end.

(** ** The handler object *)

Record ExceptionHandler : Type := {
  exception : caught;
  account : option string
}.

(** ** Reading a trace *)

Definition is_log (ev : event) : bool :=
  match ev with LogError _ _ => true | _ => false end.

Definition is_set_value (ev : event) : bool :=
  match ev with SetValue _ _ _ _ => true | _ => false end.

Definition is_raise (ev : event) : bool :=
  match ev with Raise _ => true | _ => false end.

(** The exceptions that the interpreter raises on an operand of the wrong
    type, as opposed to the two that the handler raises on purpose. *)
Definition crash (e : exn) : bool :=
  match e with
  | BankingError _ _ | Reraised _ => false
  | _ => true
  end.

(** The exceptions raised along a trace, in order. *)
Definition raised_errors (t : list event) : list exn :=
  flat_map (fun ev => match ev with Raise e => [e] | _ => [] end) t.

(** Some event satisfying [p] occurs strictly before one satisfying [q]. *)
Fixpoint occurs_before (p q : event -> bool) (t : list event) : bool :=
  match t with
  | [] => false
  | ev :: rest => (p ev && existsb q rest) || occurs_before p q rest
  end.

(** A computation raises at most once, the raise is its last event, and
    the exception it leaves with is the one it raised. *)
Definition disciplined {A} (m : M A) : Prop :=
  match result m with
  | Returned _ => raised_errors (trace m) = []
  | Raised e => exists pre, trace m = (pre ++ [Raise e])%list /\ raised_errors pre = []
  end.

(** A computation without effects: it returns a value, or crashes. *)
Inductive pure {A} : M A -> Prop :=
| pure_ret (a : A) : pure (ret a)
| pure_crash (e : exn) : crash e = true -> pure (raise e).


(** ** Sample inputs *)

Module Samples.

(** The identity localisation (no translation registered). *)
Definition plain (s : string) : string := s.

Definition strong (s : string) : string := "<strong>" ++ s ++ "</strong>".

(** Replaces the first [{0}] of a template. *)
Fixpoint subst0 (template arg : string) : string :=
  match template with
  | EmptyString => EmptyString
  | String c rest =>
      if String.prefix "{0}" template
      then arg ++ substring 3 (String.length template - 3) template
      else String c (subst0 rest arg)
  end.

Definition opaque_repr (v : value) : string := "<object>".

Definition json_headers (k : string) : option string :=
  if String.eqb k "Content-Type"
  then Some "application/json; charset=utf-8" else None.

Definition no_headers (k : string) : option string := None.

Definition response (sc : Z) (h : string -> option string)
    (body : string) (j : option value) : Response :=
  {| status_code := sc; headers := h; content := body; json := j |}.

Definition timeout : caught := OtherException "requests.exceptions.Timeout".

Definition handler (e : caught) (a : option string) : ExceptionHandler :=
  {| exception := e; account := a |}.

Definition account_name : string := "ACC-0001".

Definition unauthorized : Response :=
  response 401 json_headers "raw body" (Some (VDict [])).

(** Status 403, body [{message: Custom text}]. *)
Definition forbidden_text : Response :=
  response 403 json_headers "raw body"
    (Some (VDict [("message", VStr "Custom text")])).

(** Status 403, body [{message: {foo: 1}}]. *)
Definition forbidden_object : Response :=
  response 403 json_headers "raw body"
    (Some (VDict [("message", VDict [("foo", VInt 1)])])).

(** A JSON body sent without any [Content-Type]. *)
Definition bare_gateway : Response :=
  response 502 no_headers "raw body"
    (Some (VDict [("message", VDict [("error", VDict [("message", VStr "x")])])])).

(** Body [{message: null, exc_type: SomeError, exception: boom}]. *)
Definition server_crash : Response :=
  response 500 json_headers "raw body"
    (Some (VDict [("message", VNone); ("exc_type", VStr "SomeError");
                  ("exception", VStr "boom")])).

(** The same with an empty [exception]. *)
Definition server_crash_empty : Response :=
  response 500 json_headers "raw body"
    (Some (VDict [("message", VNone); ("exc_type", VStr "SomeError");
                  ("exception", VStr "")])).

(** Envelope [{error: {errors: [{location: A, message: m1},
    {location: B, message: m2}]}}]. *)
Definition two_errors : list value :=
  [VDict [("location", VStr "A"); ("message", VStr "m1")];
   VDict [("location", VStr "B"); ("message", VStr "m2")]].

Definition two_errors_envelope : value :=
  VDict [("error", VDict [("errors", VList two_errors)])].

Definition consent_error : list (string * value) :=
  [("message", VStr "consent missing");
   ("code", VStr "CONSENT.RESOURCE_NOT_GRANTED")].

Definition plain_error : list (string * value) :=
  [("message", VStr "limit reached"); ("code", VStr "RATE.LIMIT")].

(** Envelope [{error: {}, data: {message: x}}]. *)
Definition empty_error_with_data : list (string * value) :=
  [("error", VDict []); ("data", VDict [("message", VStr "x")])].

(** A JSON error of a shape no step recognises. *)
Definition unrecognised : Response :=
  response 500 json_headers "raw body"
    (Some (VDict [("message", VDict [("error", VDict [("status", VInt 1)])])])).

(** A gateway page: status 502, [text/html]. *)
Definition html_headers (k : string) : option string :=
  if String.eqb k "Content-Type" then Some "text/html" else None.

Definition gateway_page : Response :=
  response 502 html_headers "raw body" None.

(** A JSON content type on a body that does not parse. *)
Definition truncated_body : Response :=
  response 500 json_headers "raw body" None.

(** Status 403 with a body that does not parse. *)
Definition forbidden_page : Response :=
  response 403 html_headers "raw body" None.

(** Body [{message: {error: {message: consent missing, code: CONSENT...}}},
    exc_type: SomeError]. *)
Definition vendor_message : Response :=
  response 400 json_headers "raw body"
    (Some (VDict [("message", VDict [("error", VDict consent_error)]);
                  ("exc_type", VStr "SomeError")])).

(** Envelope whose second error is a bare string. *)
Definition mixed_errors_envelope : value :=
  VDict [("error",
          VDict [("errors",
                  VList [VDict [("location", VStr "A"); ("message", VStr "m1")];
                         VStr "m2"])])].

(** Envelope whose [errors] is a string. *)
Definition text_errors_envelope : value :=
  VDict [("error", VDict [("errors", VStr "failed")])].

(** The consent code without a message. *)
Definition consent_without_message : list (string * value) :=
  [("code", VStr "CONSENT.RESOURCE_NOT_GRANTED")].

(** Collaborators of the UI entry point: a parser that knows two texts,
    one stored session, its password, and a termination that succeeds. *)
Definition loads (text : string) : option value :=
  if String.eqb text "object"
  then Some (VDict [("message", VStr "popup closed")])
  else if String.eqb text "list" then Some (VList [])
  else None.

Definition sessions (doctype name : string) : string + string :=
  if String.eqb doctype "Klarna Kosma Session" && String.eqb name "short-1"
  then inr name else inl "DoesNotExistError".

Definition passwords (doc fieldname : string) : string + string :=
  if String.eqb fieldname "session_id"
  then inr ("secret-of-" ++ doc) else inl "AuthenticationError".

Definition ends (session_id session_id_short : string) : string + unit :=
  inr tt.

(** A localisation with one entry in its catalogue. *)
Definition catalog (s : string) : string :=
  if String.eqb s "Custom text" then "Eigener Text" else s.

(** Envelope whose only error has a location and nothing else. *)
Definition bare_location_envelope : value :=
  VDict [("error", VDict [("errors", VList [VDict [("location", VStr "A")]])])].

(** Status 500, body [{message: Internal Server Error}]. *)
Definition text_message : Response :=
  response 500 json_headers "raw body"
    (Some (VDict [("message", VStr "Internal Server Error")])).

(** The instruction of [get_msg], formatted. *)
Definition instruction : string :=
  "Please go to Banking Settings and click on <strong>Link Bank and Accounts</strong>.".

End Samples.

(** ** The effects of the UI entry point *)

(** What [handle_ui_error] can leave with: the two exceptions of its own
    payload handling, and whatever a collaborator raises. *)
Inductive ui_exn : Type :=
| UIJSONDecodeError
| UIAttributeError (attr : string)
| CollaboratorError (name : string).

Inductive ui_event : Type :=
| UILogError (title : string) (message : value)
| EndSession (session_id session_id_short : string).

Inductive ui_outcome (A : Type) : Type :=
| UIReturned (a : A)
| UIRaised (e : ui_exn).
Arguments UIReturned {A} a.
Arguments UIRaised {A} e.

Definition UI (A : Type) : Type := (list ui_event * ui_outcome A)%type.

Definition ui_ret {A} (a : A) : UI A := ([], UIReturned a).

Definition ui_bind {A B} (m : UI A) (k : A -> UI B) : UI B :=
  match m with
  | (t, UIReturned a) => let '(t', r) := k a in ((t ++ t')%list, r)
  | (t, UIRaised e) => (t, UIRaised e)
  end.

Definition ui_emit (ev : ui_event) : UI unit := ([ev], UIReturned tt).

Definition ui_raise {A} (e : ui_exn) : UI A := ([], UIRaised e).

(** The result of a call that returns or raises the named exception. *)
Definition ui_call {A} (r : string + A) : UI A :=
  match r with
  | inr a => ui_ret a
  | inl name => ui_raise (CollaboratorError name)
  end.

Definition is_end_session (ev : ui_event) : bool :=
  match ev with EndSession _ _ => true | UILogError _ _ => false end.

(** ** The handler *)

Definition CONSENT_NOT_GRANTED : string := "CONSENT.RESOURCE_NOT_GRANTED".

Section Handler.

(** What the code calls and this repository does not define:
    [frappe._] (localisation), [frappe.bold], [str.format] with one
    argument, and [str()] of a float, a list or a dict. *)
Variable translate : string -> string.
Variable bold : string -> string.
Variable format1 : string -> string -> string.
Variable repr : value -> string.

(** [format(v, "")], which an f-string applies to each field. *)
Definition py_str (v : value) : string :=
  match v with
  | VNone => "None"
  | VBool true => "True"
  | VBool false => "False"
  | VInt n => NilZero.string_of_int (Z.to_int n)
  | VStr s => s
  | _ => repr v
  end.

Definition title : string := translate "Banking Error".

Definition log_error (message : log_message) : M unit :=
  emit (LogError title message).

(** [frappe.throw(title=_("Banking Error"), msg=msg, exc=BankingError)]. *)
Definition throw (msg : value) : M unit :=
  raise (BankingError title msg).

Definition set_in_account (self : ExceptionHandler) (error : value) : M unit :=
  match account self with
  | None => ret tt
  | Some a =>
      if String.eqb a "" then ret tt
      else
        emit (SetValue "Bank Account" a "error_message" error) ;;
        emit Commit
  end.

Definition consent_info : string :=
  format1 (translate "Please go to Banking Settings and click on {0}.")
          (bold (translate "Link Bank and Accounts")).

Definition get_msg (error : value) : M value :=
  msg <- dict_get error "message" VNone ;;
  code <- dict_get error "code" VNone ;;
  if eq_str code CONSENT_NOT_GRANTED
  then iadd_str msg (" " ++ consent_info)
  else ret msg.

Definition handle_auth_error (self : ExceptionHandler)
    (response : option Response) : M unit :=
  sc <- get_status_code response ;;
  if negb (sc =? 401) then ret tt
  else
    body <- get_content response ;;
    log_error (RawContent body) ;;
    let message :=
      VStr (translate "Authentication error due to invalid credentials.") in
    set_in_account self message ;;
    throw message.

Definition handle_authorization_error (self : ExceptionHandler)
    (response : option Response) : M unit :=
  sc <- get_status_code response ;;
  if negb (sc =? 403) then ret tt
  else
    body <- get_content response ;;
    log_error (RawContent body) ;;
    data <- call_json response ;;
    content <- dict_get data "message" (VDict []) ;;
    let message :=
      match content with
      | VStr s => s
      | _ => "Authorization error due to invalid access."
      end in
    set_in_account self (VStr message) ;;
    throw (VStr (translate message)).

Definition handle_txt_html_error (self : ExceptionHandler)
    (response : option Response) : M unit :=
  h <- get_headers response ;;
  if str_contains "application/json" (headers_get h "Content-Type" "")
  then ret tt
  else
    body <- get_content response ;;
    log_error (RawContent body) ;;
    let message :=
      VStr (translate "Something went wrong. Please retry in a while.") in
    set_in_account self message ;;
    throw message.

Definition handle_frappe_server_error (self : ExceptionHandler)
    (content : value) (response : option Response) : M unit :=
  response_data <- call_json response ;;
  cond <- (if negb (truthy content)
           then py_in "exc_type" response_data
           else ret false) ;;
  if cond then
    body <- get_content response ;;
    log_error (RawContent body) ;;
    exc <- dict_get response_data "exception" VNone ;;
    let message :=
      if truthy exc then exc
      else VStr (translate "The server has errored. Please retry in some time.") in
    set_in_account self message ;;
    throw message
  else ret tt.

(** One element of the list comprehension of [handle_admin_error]. *)
Definition error_line (err : value) : M string :=
  location <- dict_get err "location" VNone ;;
  msg <- get_msg err ;;
  ret (py_str location ++ " - " ++ py_str msg).

(** [content.get("error", {}) or content.get("data", {})]. *)
Definition admin_error_data (content : value) : M value :=
  e <- dict_get content "error" (VDict []) ;;
  if truthy e then ret e else dict_get content "data" (VDict []).

Definition handle_admin_error (self : ExceptionHandler)
    (content : value) : M unit :=
  error_data <- admin_error_data content ;;
  log_error (JsonDumps error_data) ;;
  errors <- dict_get error_data "errors" VNone ;;
  if truthy errors then
    items <- py_iter errors ;;
    error_list <- mapM error_line items ;;
    let message :=
      translate "Banking Action has failed due to the following error(s):"
      ++ "<br><ul><li>" ++ join "</li><li>" error_list ++ "</li></ul>" in
    set_in_account self (VStr message) ;;
    throw (VStr message)
  else
    m <- dict_get error_data "message" VNone ;;
    if truthy m then
      message <- get_msg error_data ;;
      set_in_account self message ;;
      throw message
    else ret tt.

(** [active] is the exception the interpreter is handling when the
    handler runs: the one a bare [raise] re-raises and whose traceback
    [frappe.get_traceback()] formats. *)
Definition handle_error (active : option caught)
    (self : ExceptionHandler) : M unit :=
  if negb (isinstance_HTTPError (exception self)) then
    set_in_account self
      (VStr (translate "Something went wrong. Please retry in a while.")) ;;
    log_error (Traceback active) ;;
    match active with
    | Some e => raise (Reraised e)
    | None => raise RuntimeError
    end
  else
    let response := http_response (exception self) in
    handle_auth_error self response ;;
    handle_authorization_error self response ;;
    handle_txt_html_error self response ;;
    data <- call_json response ;;
    content <- dict_get data "message" (VDict []) ;;
    handle_frappe_server_error self content response ;;
    handle_admin_error self content.

(** [ExceptionHandler(exception, account)]: [__init__] stores the two
    fields and runs the chain. *)
Definition new_ExceptionHandler (active : option caught)
    (exception : caught) (account : option string) : M unit :=
  handle_error active {| exception := exception; account := account |}.





(** ** The specification's vocabulary *)

(** The field [k] of an error object, [None] when it is missing. *)
Definition field (k : string) (e : value) : value :=
  match e with
  | VDict items =>
      match dict_lookup k items with Some v => v | None => VNone end
  | _ => VNone
  end.

(** An error object of the vendor's schema: a dict whose [message] is a
    string. *)
Definition is_error_object (e : value) : bool :=
  match e with
  | VDict items =>
      match dict_lookup "message" items with
      | Some (VStr _) => true
      | _ => false
      end
  | _ => false
  end.

(** An element of [errors] that the list comprehension formats: an
    object whose [message] is a string, or whose [code] is not the
    consent code, so that [get_msg] appends nothing to whatever the
    message is (a missing one included). *)
Definition is_formattable_error (e : value) : bool :=
  match e with
  | VDict items =>
      match dict_lookup "message" items with
      | Some (VStr _) => true
      | _ => negb (eq_str (field "code" e) CONSENT_NOT_GRANTED)
      end
  | _ => false
  end.

(** The message-augmentation rule as the specification words it. *)
Definition augmented (message : string) (code : value) : string :=
  if eq_str code CONSENT_NOT_GRANTED
  then message ++ " " ++ consent_info
  else message.

(** The list item the specification asks for: [{location} - {message}]. *)
Definition item_text (e : value) : string :=
  py_str (field "location" e) ++ " - "
  ++ match field "message" e with
     | VStr m => augmented m (field "code" e)
     | v => py_str v
     end.

(** The [message] of a parsed body, [{}] when the key is missing. *)
Definition message_of (top : list (string * value)) : value :=
  match dict_lookup "message" top with Some v => v | None => VDict [] end.

(** The events of persisting [v]: none without an account. *)
Definition persisted (self : ExceptionHandler) (v : value) : list event :=
  trace (set_in_account self v).

(** What is persisted against what is raised: the same value, or a string
    and its localisation (the 403 step localises only what it throws). *)
Definition localised (v msg : value) : Prop :=
  v = msg \/ exists s, v = VStr s /\ msg = VStr (translate s).

(** How a step of the chain can end: it passes without a trace, it
    crashes, or it is terminal (log, persist, throw). *)
Inductive step_outcome (self : ExceptionHandler) {A} : M A -> Prop :=
| step_passes (a : A) : step_outcome self (ret a)
| step_crashes (t : list event) (e : exn) :
    crash e = true -> step_outcome self (t, Raised e)
| step_terminates (lm : log_message) (v msg : value) :
    localised v msg ->
    step_outcome self
      (LogError title lm
         :: persisted self v ++ [Raise (BankingError title msg)],
       Raised (BankingError title msg)).

(** The last step may also return after its log entry. *)
Definition final_outcome (self : ExceptionHandler) (m : M unit) : Prop :=
  step_outcome self m \/ exists lm, m = ([LogError title lm], Returned tt).

(** What follows the log entry of a step; the flag tells whether a normal
    return is among the possibilities. *)
Inductive after_log (self : ExceptionHandler) : bool -> M unit -> Prop :=
| after_log_pass : after_log self true (ret tt)
| after_log_crash (b : bool) (e : exn) :
    crash e = true -> after_log self b (raise e)
| after_log_throw (b : bool) (v msg : value) :
    localised v msg ->
    after_log self b (set_in_account self v ;; throw msg).

(** How a step of the chain can run, with the trace of each way: it
    passes without a trace, it crashes before or just after its log entry,
    or it is terminal (log, persist, throw). *)
Inductive step_run (self : ExceptionHandler) {A} : M A -> Prop :=
| step_run_passes (a : A) : step_run self (ret a)
| step_run_crashes (e : exn) :
    crash e = true -> step_run self (raise e)
| step_run_crashes_logged (lm : log_message) (e : exn) :
    crash e = true ->
    step_run self ([LogError title lm; Raise e], Raised e)
| step_run_terminates (lm : log_message) (v msg : value) :
    localised v msg ->
    step_run self
      (LogError title lm
         :: persisted self v ++ [Raise (BankingError title msg)],
       Raised (BankingError title msg)).

(** How the whole chain can run on an [HTTPError]: as a step does, except
    that it only returns after the log entry of its last step. *)
Inductive chain_run (self : ExceptionHandler) : M unit -> Prop :=
| chain_run_returns (lm : log_message) :
    chain_run self ([LogError title lm], Returned tt)
| chain_run_crashes (e : exn) :
    crash e = true -> chain_run self (raise e)
| chain_run_crashes_logged (lm : log_message) (e : exn) :
    crash e = true ->
    chain_run self ([LogError title lm; Raise e], Raised e)
| chain_run_terminates (lm : log_message) (v msg : value) :
    localised v msg ->
    chain_run self
      (LogError title lm
         :: persisted self v ++ [Raise (BankingError title msg)],
       Raised (BankingError title msg)).

(** ** The UI entry point *)

Section EntryPoint.

(** What the entry point calls and this file does not define:
    [json.loads] ([None] when it raises on a malformed text),
    [frappe.get_doc], [Document.get_password], and
    [Admin().end_session], each returning or raising. *)
Variable json_loads : string -> option value.
Variable Document : Type.
Variable get_doc : string -> string -> string + Document.
Variable get_password : Document -> string -> string + string.
Variable end_session : string -> string -> string + unit.

Definition handle_ui_error (error session_id_short : string) : UI unit :=
  ui_bind
    (if negb (String.eqb error "") then
       match json_loads error with
       | None => ui_raise UIJSONDecodeError
       | Some (VDict items) =>
           ui_emit (UILogError title (field "message" (VDict items)))
       | Some _ => ui_raise (UIAttributeError "get")
       end
     else ui_ret tt)
    (fun _ =>
       ui_bind (ui_call (get_doc "Klarna Kosma Session" session_id_short))
         (fun doc =>
            ui_bind (ui_call (get_password doc "session_id"))
              (fun session_id =>
                 ui_bind (ui_emit (EndSession session_id session_id_short))
                   (fun _ =>
                      ui_call (end_session session_id session_id_short))))).

End EntryPoint.

(** * Properties *)

(** ** The monad *)

Lemma bind_ret_l {A B} (a : A) (k : A -> M B) : bind (ret a) k = k a.
Proof. unfold bind, ret. destruct (k a). reflexivity. Qed.

Lemma bind_raise_l {A B} (e : exn) (k : A -> M B) : bind (raise e) k = raise e.
Proof. reflexivity. Qed.

Lemma bind_ret_r {A} (m : M A) : bind m ret = m.
Proof.
  destruct m as [t [a | e]]; simpl; [rewrite app_nil_r|]; reflexivity.
Qed.


Lemma bind_returned {A B} (m : M A) (k : A -> M B) t a :
  m = (t, Returned a) ->
  bind m k = ((t ++ trace (k a))%list, result (k a)).
Proof. intros ->. simpl. destruct (k a). reflexivity. Qed.

Lemma bind_raised {A B} (m : M A) (k : A -> M B) t e :
  m = (t, Raised e) -> bind m k = (t, Raised e).
Proof. intros ->. reflexivity. Qed.

Lemma bind_emit {B} (ev : event) (k : unit -> M B) :
  bind (emit ev) k = (ev :: trace (k tt), result (k tt)).
Proof. unfold emit. simpl. destruct (k tt). reflexivity. Qed.


Lemma raised_errors_app (t1 t2 : list event) :
  raised_errors (t1 ++ t2) = (raised_errors t1 ++ raised_errors t2)%list.
Proof. apply flat_map_app. Qed.

Lemma disciplined_ret {A} (a : A) : disciplined (ret a).
Proof. reflexivity. Qed.



Lemma disciplined_bind {A B} (m : M A) (k : A -> M B) :
  disciplined m -> (forall a, disciplined (k a)) -> disciplined (bind m k).
Proof.
  unfold disciplined. destruct m as [t [a | e]]; simpl; intros Hm Hk.
  - specialize (Hk a). destruct (k a) as [t' [b | e]]; simpl in *.
    + rewrite raised_errors_app, Hm, Hk. reflexivity.
    + destruct Hk as [pre [-> Hpre]]. exists (t ++ pre)%list. split.
      * apply app_assoc.
      * rewrite raised_errors_app, Hm, Hpre. reflexivity.
  - exact Hm.
Qed.

Lemma disciplined_mapM {A B} (f : A -> M B) (l : list A) :
  (forall a, disciplined (f a)) -> disciplined (mapM f l).
Proof.
  intros Hf. induction l as [| a rest IH]; simpl.
  - apply disciplined_ret.
  - apply disciplined_bind; [apply Hf | intros b].
    apply disciplined_bind; [exact IH | intros bs]. apply disciplined_ret.
Qed.


Lemma pure_bind {A B} (m : M A) (k : A -> M B) :
  pure m -> (forall a, pure (k a)) -> pure (bind m k).
Proof.
  intros [a | e He] Hk.
  - rewrite bind_ret_l. apply Hk.
  - rewrite bind_raise_l. constructor. exact He.
Qed.

Lemma pure_mapM {A B} (f : A -> M B) (l : list A) :
  (forall a, pure (f a)) -> pure (mapM f l).
Proof.
  intros Hf. induction l as [| a rest IH]; simpl.
  - constructor.
  - apply pure_bind; [apply Hf | intros b].
    apply pure_bind; [exact IH | intros bs]. constructor.
Qed.

Lemma pure_cases {A} (m : M A) :
  pure m ->
  (exists a, m = ret a) \/ (exists e, crash e = true /\ m = raise e).
Proof. intros [a | e He]; [left | right]; eauto. Qed.

(** ** The Python operations *)

Lemma pure_dict_get v k d : pure (dict_get v k d).
Proof. destruct v; simpl; constructor; reflexivity. Qed.

Lemma pure_py_in k v : pure (py_in k v).
Proof. destruct v; simpl; constructor; reflexivity. Qed.

Lemma pure_py_iter v : pure (py_iter v).
Proof. destruct v; simpl; constructor; reflexivity. Qed.

Lemma pure_iadd_str v s : pure (iadd_str v s).
Proof. destruct v; simpl; constructor; reflexivity. Qed.

Lemma pure_get_status_code r : pure (get_status_code r).
Proof. destruct r; simpl; constructor; reflexivity. Qed.

Lemma pure_get_content r : pure (get_content r).
Proof. destruct r; simpl; constructor; reflexivity. Qed.

Lemma pure_get_headers r : pure (get_headers r).
Proof. destruct r; simpl; constructor; reflexivity. Qed.

Lemma pure_call_json r : pure (call_json r).
Proof.
  destruct r as [r |]; simpl; [destruct (json r) |]; constructor; reflexivity.
Qed.

Lemma pure_get_msg e : pure (get_msg e).
Proof.
  unfold get_msg. apply pure_bind; [apply pure_dict_get | intros msg].
  apply pure_bind; [apply pure_dict_get | intros code].
  destruct (eq_str code CONSENT_NOT_GRANTED); [apply pure_iadd_str | constructor].
Qed.

Lemma pure_error_line e : pure (error_line e).
Proof.
  unfold error_line. apply pure_bind; [apply pure_dict_get | intros loc].
  apply pure_bind; [apply pure_get_msg | intros msg]. constructor.
Qed.

Lemma pure_admin_error_data c : pure (admin_error_data c).
Proof.
  unfold admin_error_data. apply pure_bind; [apply pure_dict_get | intros e].
  destruct (truthy e); [constructor | apply pure_dict_get].
Qed.

Lemma dict_get_field items k :
  dict_get (VDict items) k VNone = ret (field k (VDict items)).
Proof. simpl. destruct (dict_lookup k items); reflexivity. Qed.

(** ** Strings *)

Lemma prefix_app (a b : string) : String.prefix a (a ++ b) = true.
Proof.
  induction a as [| c a IH]; simpl.
  - destruct b; reflexivity.
  - destruct (ascii_dec c c); [exact IH | congruence].
Qed.

Lemma prefix_str_contains (a h : string) :
  String.prefix a h = true -> str_contains a h = true.
Proof. destruct h; simpl; intros ->; reflexivity. Qed.

Lemma str_contains_prefix (a b : string) : str_contains a (a ++ b) = true.
Proof. apply prefix_str_contains, prefix_app. Qed.

Lemma str_contains_app_r (x a s : string) :
  str_contains x s = true -> str_contains x (a ++ s) = true.
Proof.
  intros H. induction a as [| c a IH]; simpl.
  - exact H.
  - rewrite IH. apply orb_true_r.
Qed.

Lemma str_contains_refl (b : string) : str_contains b b = true.
Proof.
  replace b with (b ++ "") at 2.
  - apply str_contains_prefix.
  - induction b; simpl; congruence.
Qed.

Lemma str_contains_suffix (a b : string) : str_contains b (a ++ b) = true.
Proof. apply str_contains_app_r, str_contains_refl. Qed.

(** ** Persisting to the account *)

Lemma set_in_account_returns self v :
  set_in_account self v = (persisted self v, Returned tt).
Proof.
  unfold persisted, set_in_account.
  destruct (account self) as [a |]; [destruct (String.eqb a "") |]; reflexivity.
Qed.

Lemma persisted_supplied self a v :
  account self = Some a -> a <> "" ->
  persisted self v = [SetValue "Bank Account" a "error_message" v; Commit].
Proof.
  intros Ha Hne. unfold persisted, set_in_account. rewrite Ha.
  destruct (String.eqb_spec a ""); [contradiction | reflexivity].
Qed.

Lemma persisted_without_account self v :
  account self = None \/ account self = Some "" -> persisted self v = [].
Proof.
  unfold persisted, set_in_account. intros [-> | ->]; reflexivity.
Qed.

Lemma persisted_cases self v :
  persisted self v = []
  \/ exists a, persisted self v = [SetValue "Bank Account" a "error_message" v; Commit].
Proof.
  unfold persisted, set_in_account.
  destruct (account self) as [a |]; [destruct (String.eqb a "") |];
    simpl; eauto.
Qed.



(** A terminal step: log, persist, throw. *)
Lemma log_persist_throw self lm v msg :
  (log_error lm ;; set_in_account self v ;; throw msg)
  = (LogError title lm :: persisted self v ++ [Raise (BankingError title msg)],
     Raised (BankingError title msg)).
Proof.
  unfold log_error. rewrite bind_emit.
  rewrite (bind_returned _ _ _ _ (set_in_account_returns self v)).
  reflexivity.
Qed.

(** ** The steps, one by one *)

Lemma handle_auth_error_skips self r :
  status_code r <> 401 -> handle_auth_error self (Some r) = ret tt.
Proof.
  intros H. unfold handle_auth_error. simpl get_status_code.
  rewrite bind_ret_l. apply Z.eqb_neq in H. rewrite H. reflexivity.
Qed.

Lemma handle_auth_error_fires self r :
  status_code r = 401 ->
  let message :=
    VStr (translate "Authentication error due to invalid credentials.") in
  handle_auth_error self (Some r)
  = (LogError title (RawContent (content r))
       :: persisted self message ++ [Raise (BankingError title message)],
     Raised (BankingError title message)).
Proof.
  intros H. unfold handle_auth_error. simpl get_status_code.
  rewrite bind_ret_l, H. simpl negb. cbv iota. simpl get_content.
  rewrite bind_ret_l. apply log_persist_throw.
Qed.

Lemma handle_authorization_error_skips self r :
  status_code r <> 403 -> handle_authorization_error self (Some r) = ret tt.
Proof.
  intros H. unfold handle_authorization_error. simpl get_status_code.
  rewrite bind_ret_l. apply Z.eqb_neq in H. rewrite H. reflexivity.
Qed.

Lemma handle_txt_html_error_skips self r :
  str_contains "application/json" (headers_get (headers r) "Content-Type" "") = true ->
  handle_txt_html_error self (Some r) = ret tt.
Proof.
  intros H. unfold handle_txt_html_error. simpl get_headers.
  rewrite bind_ret_l, H. reflexivity.
Qed.

Lemma handle_txt_html_error_fires self r :
  str_contains "application/json" (headers_get (headers r) "Content-Type" "") = false ->
  let message :=
    VStr (translate "Something went wrong. Please retry in a while.") in
  handle_txt_html_error self (Some r)
  = (LogError title (RawContent (content r))
       :: persisted self message ++ [Raise (BankingError title message)],
     Raised (BankingError title message)).
Proof.
  intros H. unfold handle_txt_html_error. simpl get_headers.
  rewrite bind_ret_l, H. simpl get_content. rewrite bind_ret_l.
  apply log_persist_throw.
Qed.

Lemma handle_error_http active self response :
  exception self = HTTPError response ->
  handle_error active self
  = (handle_auth_error self response ;;
     handle_authorization_error self response ;;
     handle_txt_html_error self response ;;
     data <- call_json response ;;
     content <- dict_get data "message" (VDict []) ;;
     handle_frappe_server_error self content response ;;
     handle_admin_error self content).
Proof. intros H. unfold handle_error. rewrite H. reflexivity. Qed.

(** C10: an HTTP failure whose status is neither 401 nor 403 and whose
    headers have no [Content-Type] at all is handled as a non-JSON
    response, whatever the body is (the parsed body [json r] is not even
    looked at): the raw body is logged, the generic retry message is
    persisted to the account when one was given, and a [BankingError]
    with that message is raised. *)
Theorem missing_content_type_is_not_json active self r :
  exception self = HTTPError (Some r) ->
  status_code r <> 401 ->
  status_code r <> 403 ->
  headers r "Content-Type" = None ->
  let message :=
    VStr (translate "Something went wrong. Please retry in a while.") in
  handle_error active self
  = (LogError title (RawContent (content r))
       :: persisted self message ++ [Raise (BankingError title message)],
     Raised (BankingError title message))
  /\ (forall a, account self = Some a -> a <> "" ->
      persisted self message
      = [SetValue "Bank Account" a "error_message" message; Commit]).
Proof.
  intros Hexc H401 H403 Hct message. split.
  - rewrite (handle_error_http _ _ _ Hexc).
    rewrite handle_auth_error_skips, bind_ret_l by assumption.
    rewrite handle_authorization_error_skips, bind_ret_l by assumption.
    apply bind_raised. apply handle_txt_html_error_fires.
    unfold headers_get. rewrite Hct. reflexivity.
  - intros a Ha Hne. apply persisted_supplied; assumption.
Qed.

Lemma bind_emit_eq {B} (ev : event) (k : unit -> M B) t r :
  k tt = (t, r) -> bind (emit ev) k = (ev :: t, r).
Proof. intros H. rewrite bind_emit, H. reflexivity. Qed.

Lemma call_json_parsed r v : json r = Some v -> call_json (Some r) = ret v.
Proof. intros H. unfold call_json. rewrite H. reflexivity. Qed.

Lemma handle_authorization_error_fires self r top :
  status_code r = 403 ->
  json r = Some (VDict top) ->
  let chosen :=
    match message_of top with
    | VStr s => s
    | _ => "Authorization error due to invalid access."
    end in
  handle_authorization_error self (Some r)
  = (LogError title (RawContent (content r))
       :: persisted self (VStr chosen)
       ++ [Raise (BankingError title (VStr (translate chosen)))],
     Raised (BankingError title (VStr (translate chosen)))).
Proof.
  intros H Hj chosen. unfold handle_authorization_error.
  simpl get_status_code. rewrite bind_ret_l, H. simpl negb. cbv iota.
  simpl get_content. rewrite bind_ret_l. unfold log_error.
  apply bind_emit_eq. rewrite (call_json_parsed _ _ Hj), bind_ret_l.
  simpl dict_get. rewrite bind_ret_l. fold (message_of top). fold chosen.
  rewrite (bind_returned _ _ _ _ (set_in_account_returns self (VStr chosen))).
  reflexivity.
Qed.

Lemma handle_frappe_server_error_fires self r top c :
  json r = Some (VDict top) ->
  truthy c = false ->
  dict_lookup "exc_type" top <> None ->
  let exc := field "exception" (VDict top) in
  let message :=
    if truthy exc then exc
    else VStr (translate "The server has errored. Please retry in some time.") in
  handle_frappe_server_error self c (Some r)
  = (LogError title (RawContent (content r))
       :: persisted self message ++ [Raise (BankingError title message)],
     Raised (BankingError title message)).
Proof.
  intros Hj Hc Hexc exc message. unfold handle_frappe_server_error.
  rewrite (call_json_parsed _ _ Hj), bind_ret_l, Hc. simpl negb. cbv iota.
  simpl py_in. destruct (dict_lookup "exc_type" top); [| contradiction].
  rewrite bind_ret_l. simpl get_content. rewrite bind_ret_l.
  unfold log_error. apply bind_emit_eq.
  rewrite dict_get_field, bind_ret_l. fold exc. fold message.
  rewrite (bind_returned _ _ _ _ (set_in_account_returns self message)).
  reflexivity.
Qed.

Lemma handle_frappe_server_error_skips self r top c :
  json r = Some (VDict top) ->
  truthy c = true \/ dict_lookup "exc_type" top = None ->
  handle_frappe_server_error self c (Some r) = ret tt.
Proof.
  intros Hj H. unfold handle_frappe_server_error.
  rewrite (call_json_parsed _ _ Hj), bind_ret_l.
  destruct (truthy c); simpl.
  - reflexivity.
  - destruct H as [H | H]; [discriminate | rewrite H; reflexivity].
Qed.

(** The chain on a JSON response whose status is neither 401 nor 403:
    the first three steps pass and the last two run on the [message]. *)
Lemma handle_error_json active self r top :
  exception self = HTTPError (Some r) ->
  status_code r <> 401 ->
  status_code r <> 403 ->
  str_contains "application/json" (headers_get (headers r) "Content-Type" "") = true ->
  json r = Some (VDict top) ->
  handle_error active self
  = (handle_frappe_server_error self (message_of top) (Some r) ;;
     handle_admin_error self (message_of top)).
Proof.
  intros Hexc H401 H403 Hct Hj. rewrite (handle_error_http _ _ _ Hexc).
  rewrite handle_auth_error_skips, bind_ret_l by assumption.
  rewrite handle_authorization_error_skips, bind_ret_l by assumption.
  rewrite handle_txt_html_error_skips, bind_ret_l by assumption.
  rewrite (call_json_parsed _ _ Hj), bind_ret_l.
  simpl dict_get. rewrite bind_ret_l. reflexivity.
Qed.

(** C3, as the code has it: a caught failure that is not an [HTTPError],
    handled while it is the exception the interpreter is handling (the
    handler is built in the [except] block that caught it), is re-raised
    by the bare [raise] as the very same object; before that the generic
    retry message is persisted to the account when one was supplied, and
    then the traceback is logged under the fixed title. *)
Theorem non_http_failure_is_reraised active self e :
  exception self = e ->
  isinstance_HTTPError e = false ->
  active = Some e ->
  let message :=
    VStr (translate "Something went wrong. Please retry in a while.") in
  handle_error active self
  = ((persisted self message
        ++ [LogError title (Traceback (Some e)); Raise (Reraised e)])%list,
     Raised (Reraised e))
  /\ (forall a, account self = Some a -> a <> "" ->
      persisted self message
      = [SetValue "Bank Account" a "error_message" message; Commit]).
Proof.
  intros Hexc He -> message. split.
  - unfold handle_error. rewrite Hexc, He. simpl negb. cbv iota.
    rewrite (bind_returned _ _ _ _ (set_in_account_returns self message)).
    reflexivity.
  - intros a Ha Hne. apply persisted_supplied; assumption.
Qed.

(** C5, as the code has it: on status 403 with a body that parses to a
    JSON object, the raw body is logged and a [BankingError] is raised
    whose message is the localisation of the body's top-level [message]
    when that is a string, and of the fixed text otherwise; the chosen
    message, before localisation, is what is persisted to the account.
    The raised text is the chosen message itself wherever no translation
    is registered for it. *)
Theorem forbidden_message_is_body_message active self r top :
  exception self = HTTPError (Some r) ->
  status_code r = 403 ->
  json r = Some (VDict top) ->
  let chosen :=
    match message_of top with
    | VStr s => s
    | _ => "Authorization error due to invalid access."
    end in
  handle_error active self
  = (LogError title (RawContent (content r))
       :: persisted self (VStr chosen)
       ++ [Raise (BankingError title (VStr (translate chosen)))],
     Raised (BankingError title (VStr (translate chosen))))
  /\ (translate chosen = chosen ->
      result (handle_error active self)
      = Raised (BankingError title (VStr chosen)))
  /\ (forall a, account self = Some a -> a <> "" ->
      persisted self (VStr chosen)
      = [SetValue "Bank Account" a "error_message" (VStr chosen); Commit]).
Proof.
  intros Hexc H403 Hj chosen.
  assert (Hrun : handle_error active self
    = (LogError title (RawContent (content r))
         :: persisted self (VStr chosen)
         ++ [Raise (BankingError title (VStr (translate chosen)))],
       Raised (BankingError title (VStr (translate chosen))))).
  { rewrite (handle_error_http _ _ _ Hexc).
    rewrite handle_auth_error_skips, bind_ret_l by lia.
    apply bind_raised. apply handle_authorization_error_fires; assumption. }
  split; [exact Hrun | split].
  - intros Htr. rewrite Hrun, Htr. reflexivity.
  - intros a Ha Hne. apply persisted_supplied; assumption.
Qed.

(** C6, as the code has it: on a JSON response (status neither 401 nor
    403) whose [message] is falsy and whose top level has an [exc_type]
    key, the raw body is logged and a [BankingError] is raised whose
    message is the body's [exception] field when that is present and
    truthy (non-empty), and the fixed retry text otherwise. *)
Theorem server_error_message_is_exception active self r top :
  exception self = HTTPError (Some r) ->
  status_code r <> 401 ->
  status_code r <> 403 ->
  str_contains "application/json" (headers_get (headers r) "Content-Type" "") = true ->
  json r = Some (VDict top) ->
  truthy (message_of top) = false ->
  dict_lookup "exc_type" top <> None ->
  let exc := field "exception" (VDict top) in
  let message :=
    if truthy exc then exc
    else VStr (translate "The server has errored. Please retry in some time.") in
  handle_error active self
  = (LogError title (RawContent (content r))
       :: persisted self message ++ [Raise (BankingError title message)],
     Raised (BankingError title message))
  /\ (forall a, account self = Some a -> a <> "" ->
      persisted self message
      = [SetValue "Bank Account" a "error_message" message; Commit]).
Proof.
  intros Hexc H401 H403 Hct Hj Hfalsy Hkey exc message. split.
  - rewrite (handle_error_json _ _ _ _ Hexc H401 H403 Hct Hj).
    apply bind_raised.
    apply handle_frappe_server_error_fires; assumption.
  - intros a Ha Hne. apply persisted_supplied; assumption.
Qed.

(** ** The message-augmentation rule *)

Lemma field_lookup k items v :
  dict_lookup k items = Some v -> field k (VDict items) = v.
Proof. intros H. simpl. rewrite H. reflexivity. Qed.

Lemma get_msg_of_string items m :
  dict_lookup "message" items = Some (VStr m) ->
  get_msg (VDict items)
  = ret (VStr (augmented m (field "code" (VDict items)))).
Proof.
  intros Hm. unfold get_msg, augmented.
  rewrite !dict_get_field, !bind_ret_l.
  rewrite (field_lookup _ _ _ Hm).
  destruct (eq_str (field "code" (VDict items)) CONSENT_NOT_GRANTED);
    reflexivity.
Qed.

(** C8: [get_msg] returns the [message] of an error object unchanged when
    its [code] is not [CONSENT.RESOURCE_NOT_GRANTED]; when it is, it
    returns the message, a space and the fixed instruction, so that the
    result contains both the original message and the instruction. *)
Theorem get_msg_appends_instruction items m :
  dict_lookup "message" items = Some (VStr m) ->
  let code := field "code" (VDict items) in
  (eq_str code CONSENT_NOT_GRANTED = false ->
   get_msg (VDict items) = ret (VStr m))
  /\ (eq_str code CONSENT_NOT_GRANTED = true ->
      get_msg (VDict items) = ret (VStr (m ++ " " ++ consent_info))
      /\ str_contains m (m ++ " " ++ consent_info) = true
      /\ str_contains consent_info (m ++ " " ++ consent_info) = true).
Proof.
  intros Hm code. rewrite (get_msg_of_string _ _ Hm). fold code.
  unfold augmented. split; intros ->.
  - reflexivity.
  - split; [reflexivity | split].
    + apply str_contains_prefix.
    + apply str_contains_app_r, str_contains_suffix.
Qed.

(** Whatever the [message] is, a code other than the consent code leaves
    it as it is. *)
Lemma get_msg_other_code items :
  eq_str (field "code" (VDict items)) CONSENT_NOT_GRANTED = false ->
  get_msg (VDict items) = ret (field "message" (VDict items)).
Proof.
  intros H. unfold get_msg. rewrite !dict_get_field, !bind_ret_l, H.
  reflexivity.
Qed.

(** ** The vendor step *)

(** C9, as the code has it: [error_data] is the envelope's [error] when
    that is present and truthy (non-empty); otherwise it is the
    envelope's [data] when that key is present, and the empty dict when
    it is not.  It is what the step logs first. *)
Theorem error_data_is_truthy_error_else_data self items :
  let error :=
    match dict_lookup "error" items with Some v => v | None => VDict [] end in
  let data :=
    match dict_lookup "data" items with Some v => v | None => VDict [] end in
  let error_data := if truthy error then error else data in
  admin_error_data (VDict items) = ret error_data
  /\ exists rest,
      trace (handle_admin_error self (VDict items))
      = LogError title (JsonDumps error_data) :: rest.
Proof.
  intros error data error_data.
  assert (H : admin_error_data (VDict items) = ret error_data).
  { unfold admin_error_data. simpl dict_get. rewrite bind_ret_l.
    fold error. unfold error_data. destruct (truthy error); reflexivity. }
  split; [exact H |].
  unfold handle_admin_error. rewrite H, bind_ret_l.
  unfold log_error. rewrite bind_emit. simpl. eauto.
Qed.

Lemma error_line_of_error_object e :
  is_error_object e = true -> error_line e = ret (item_text e).
Proof.
  destruct e as [| | | | | | items]; simpl; try discriminate.
  destruct (dict_lookup "message" items) as [[| | | | m | |] |] eqn:Hm;
    try discriminate.
  intros _. unfold error_line.
  rewrite dict_get_field, bind_ret_l.
  rewrite (get_msg_of_string _ _ Hm), bind_ret_l.
  unfold item_text. rewrite (field_lookup _ _ _ Hm). reflexivity.
Qed.

Lemma error_line_of_formattable e :
  is_formattable_error e = true -> error_line e = ret (item_text e).
Proof.
  destruct e as [| | | | | | items]; try discriminate.
  unfold is_formattable_error.
  destruct (dict_lookup "message" items) as [v |] eqn:Hm.
  - destruct v as [| b | n | f | m | l | kvs];
      try (intros Hc; apply negb_true_iff in Hc;
           unfold error_line, item_text;
           rewrite dict_get_field, bind_ret_l;
           rewrite (get_msg_other_code _ Hc), bind_ret_l;
           rewrite (field_lookup _ _ _ Hm); reflexivity).
    intros _. apply error_line_of_error_object. simpl. rewrite Hm.
    reflexivity.
  - intros Hc. apply negb_true_iff in Hc. unfold error_line, item_text.
    rewrite dict_get_field, bind_ret_l.
    rewrite (get_msg_other_code _ Hc), bind_ret_l.
    assert (Hf : field "message" (VDict items) = VNone).
    { simpl. rewrite Hm. reflexivity. }
    rewrite Hf. reflexivity.
Qed.

Lemma mapM_ret {A B} (f : A -> M B) (g : A -> B) (l : list A) :
  (forall a, In a l -> f a = ret (g a)) -> mapM f l = ret (map g l).
Proof.
  induction l as [| a rest IH]; simpl; intros H.
  - reflexivity.
  - rewrite (H a) by auto. rewrite bind_ret_l, IH by auto.
    rewrite bind_ret_l. reflexivity.
Qed.

Lemma item_text_of_strings items loc m :
  dict_lookup "location" items = Some (VStr loc) ->
  dict_lookup "message" items = Some (VStr m) ->
  item_text (VDict items)
  = loc ++ " - " ++ augmented m (field "code" (VDict items)).
Proof.
  intros Hl Hm. unfold item_text.
  rewrite (field_lookup _ _ _ Hl), (field_lookup _ _ _ Hm). reflexivity.
Qed.

(** C7, as the code has it: when [error_data] has a non-empty [errors]
    list whose elements are objects, each with a string [message] or with
    a [code] other than the consent code, a [BankingError] is raised whose
    message is the fixed lead-in followed by an HTML list with one item
    per element, in the list's order, each item being
    [{location} - {message}] with the message augmented by the rule of
    [get_msg] (a missing field reads [None]); the same message is
    persisted to the account. *)
Theorem errors_become_an_html_list self c ed errs :
  admin_error_data c = ret (VDict ed) ->
  dict_lookup "errors" ed = Some (VList errs) ->
  errs <> [] ->
  forallb is_formattable_error errs = true ->
  let lines := map item_text errs in
  let message :=
    VStr (translate "Banking Action has failed due to the following error(s):"
          ++ "<br><ul><li>" ++ join "</li><li>" lines ++ "</li></ul>") in
  handle_admin_error self c
  = (LogError title (JsonDumps (VDict ed))
       :: persisted self message ++ [Raise (BankingError title message)],
     Raised (BankingError title message))
  /\ length lines = length errs
  /\ (forall i e, nth_error errs i = Some e ->
      nth_error lines i = Some (item_text e))
  /\ (forall a, account self = Some a -> a <> "" ->
      persisted self message
      = [SetValue "Bank Account" a "error_message" message; Commit]).
Proof.
  intros Hed Herrs Hne Hobj lines message. split; [| split; [| split]].
  - unfold handle_admin_error. rewrite Hed, bind_ret_l.
    unfold log_error. apply bind_emit_eq.
    simpl dict_get. rewrite Herrs, bind_ret_l.
    destruct errs as [| e0 rest]; [contradiction |].
    simpl truthy. cbv iota. simpl py_iter. rewrite bind_ret_l.
    rewrite (mapM_ret error_line item_text).
    + rewrite bind_ret_l. fold lines. fold message.
      rewrite (bind_returned _ _ _ _ (set_in_account_returns self message)).
      reflexivity.
    + intros a Ha. apply error_line_of_formattable.
      rewrite forallb_forall in Hobj. apply Hobj, Ha.
  - apply length_map.
  - intros i e Hi. unfold lines. rewrite nth_error_map, Hi. reflexivity.
  - intros a Ha Hna. apply persisted_supplied; assumption.
Qed.

(** ** How the steps end *)

Lemma pure_step_outcome self {A} (m : M A) : pure m -> step_outcome self m.
Proof. intros [a | e He]; [apply step_passes | apply step_crashes, He]. Qed.

Lemma step_outcome_bind self {A B} (m : M A) (k : A -> M B) :
  step_outcome self m -> (forall a, step_outcome self (k a)) ->
  step_outcome self (bind m k).
Proof.
  intros [a | t e He | lm v msg Hl] Hk.
  - rewrite bind_ret_l. apply Hk.
  - apply step_crashes, He.
  - apply step_terminates, Hl.
Qed.

Lemma final_outcome_bind self {A} (m : M A) (k : A -> M unit) :
  step_outcome self m -> (forall a, final_outcome self (k a)) ->
  final_outcome self (bind m k).
Proof.
  intros [a | t e He | lm v msg Hl] Hk.
  - rewrite bind_ret_l. apply Hk.
  - left. apply step_crashes, He.
  - left. apply step_terminates, Hl.
Qed.

Lemma after_log_bind self b {A} (m : M A) (k : A -> M unit) :
  pure m -> (forall a, after_log self b (k a)) -> after_log self b (bind m k).
Proof.
  intros [a | e He] Hk.
  - rewrite bind_ret_l. apply Hk.
  - apply after_log_crash, He.
Qed.

Lemma logged_final self lm b (k : M unit) :
  after_log self b k ->
  (b = false -> step_outcome self (log_error lm ;; k))
  /\ final_outcome self (log_error lm ;; k).
Proof.
  intros [| b' e He | b' v msg Hl].
  - split; [discriminate | right]. exists lm. reflexivity.
  - assert (H : step_outcome self (log_error lm ;; @raise unit e)).
    { apply (step_crashes self [LogError title lm; Raise e] e He). }
    split; [intros _ | left]; exact H.
  - assert (H : step_outcome self
                  (log_error lm ;; set_in_account self v ;; throw msg)).
    { rewrite log_persist_throw. apply step_terminates, Hl. }
    split; [intros _ | left]; exact H.
Qed.

Lemma logged_step self lm (k : M unit) :
  after_log self false k -> step_outcome self (log_error lm ;; k).
Proof. intros H. apply (logged_final self lm false k H). reflexivity. Qed.

Lemma localised_refl v : localised v v.
Proof. left. reflexivity. Qed.

Lemma handle_auth_error_outcome self response :
  step_outcome self (handle_auth_error self response).
Proof.
  unfold handle_auth_error.
  apply step_outcome_bind;
    [apply pure_step_outcome, pure_get_status_code | intros sc].
  destruct (negb (sc =? 401)); [apply step_passes |].
  apply step_outcome_bind;
    [apply pure_step_outcome, pure_get_content | intros body].
  apply logged_step, after_log_throw, localised_refl.
Qed.

Lemma handle_authorization_error_outcome self response :
  step_outcome self (handle_authorization_error self response).
Proof.
  unfold handle_authorization_error.
  apply step_outcome_bind;
    [apply pure_step_outcome, pure_get_status_code | intros sc].
  destruct (negb (sc =? 403)); [apply step_passes |].
  apply step_outcome_bind;
    [apply pure_step_outcome, pure_get_content | intros body].
  apply logged_step.
  apply after_log_bind; [apply pure_call_json | intros data].
  apply after_log_bind; [apply pure_dict_get | intros c].
  apply after_log_throw. right. eexists. split; reflexivity.
Qed.

Lemma handle_txt_html_error_outcome self response :
  step_outcome self (handle_txt_html_error self response).
Proof.
  unfold handle_txt_html_error.
  apply step_outcome_bind;
    [apply pure_step_outcome, pure_get_headers | intros h].
  destruct (str_contains _ _); [apply step_passes |].
  apply step_outcome_bind;
    [apply pure_step_outcome, pure_get_content | intros body].
  apply logged_step, after_log_throw, localised_refl.
Qed.

Lemma handle_frappe_server_error_outcome self c response :
  step_outcome self (handle_frappe_server_error self c response).
Proof.
  unfold handle_frappe_server_error.
  apply step_outcome_bind;
    [apply pure_step_outcome, pure_call_json | intros data].
  apply step_outcome_bind.
  { apply pure_step_outcome.
    destruct (negb (truthy c)); [apply pure_py_in | constructor]. }
  intros [|]; [| apply step_passes].
  apply step_outcome_bind;
    [apply pure_step_outcome, pure_get_content | intros body].
  apply logged_step.
  apply after_log_bind; [apply pure_dict_get | intros exc].
  apply after_log_throw, localised_refl.
Qed.

Lemma pure_error_lines items : pure (mapM error_line items).
Proof. apply pure_mapM. intros e. apply pure_error_line. Qed.

Lemma handle_admin_error_outcome self c :
  final_outcome self (handle_admin_error self c).
Proof.
  unfold handle_admin_error.
  apply final_outcome_bind;
    [apply pure_step_outcome, pure_admin_error_data | intros error_data].
  apply (logged_final self (JsonDumps error_data) true).
  apply after_log_bind; [apply pure_dict_get | intros errors].
  destruct (truthy errors).
  - apply after_log_bind; [apply pure_py_iter | intros items].
    apply after_log_bind; [apply pure_error_lines | intros error_list].
    apply after_log_throw, localised_refl.
  - apply after_log_bind; [apply pure_dict_get | intros m].
    destruct (truthy m); [| apply after_log_pass].
    apply after_log_bind; [apply pure_get_msg | intros message].
    apply after_log_throw, localised_refl.
Qed.

(** On an [HTTPError] the whole chain ends as one of its steps does. *)
Lemma handle_error_outcome active self response :
  exception self = HTTPError response ->
  final_outcome self (handle_error active self).
Proof.
  intros Hexc. rewrite (handle_error_http _ _ _ Hexc).
  apply final_outcome_bind; [apply handle_auth_error_outcome | intros _].
  apply final_outcome_bind;
    [apply handle_authorization_error_outcome | intros _].
  apply final_outcome_bind; [apply handle_txt_html_error_outcome | intros _].
  apply final_outcome_bind;
    [apply pure_step_outcome, pure_call_json | intros data].
  apply final_outcome_bind;
    [apply pure_step_outcome, pure_dict_get | intros c].
  apply final_outcome_bind;
    [apply handle_frappe_server_error_outcome | intros _].
  apply handle_admin_error_outcome.
Qed.

(** C4, as the code has it: whenever the handler leaves with one of the
    two errors it raises on purpose, the raise is the last thing that
    happens, and the log entry and the write to the account (when one was
    supplied) both come before it.  A [BankingError] (401, 403, non-JSON
    response, server error, vendor error) is preceded by the log entry
    and then the write; the re-raised failure is preceded by the write
    and then the log entry. *)
Theorem log_and_persist_precede_the_raise active self :
  (forall ti msg,
      result (handle_error active self) = Raised (BankingError ti msg) ->
      exists lm v,
        ti = title /\ localised v msg /\
        trace (handle_error active self)
        = LogError title lm
            :: persisted self v ++ [Raise (BankingError ti msg)])
  /\ (forall e,
      result (handle_error active self) = Raised (Reraised e) ->
      trace (handle_error active self)
      = (persisted self
           (VStr (translate "Something went wrong. Please retry in a while."))
         ++ [LogError title (Traceback active); Raise (Reraised e)])%list)
  /\ (forall a v, account self = Some a -> a <> "" ->
      persisted self v = [SetValue "Bank Account" a "error_message" v; Commit]).
Proof.
  assert (Hacc : forall a v, account self = Some a -> a <> "" ->
            persisted self v
            = [SetValue "Bank Account" a "error_message" v; Commit]).
  { intros a v Ha Hne. apply persisted_supplied; assumption. }
  apply and_assoc. split; [| exact Hacc]. clear Hacc.
  destruct (exception self) as [response | name] eqn:Hexc.
  - pose proof (handle_error_outcome active self response Hexc) as H.
    split.
    + intros ti msg Hres.
      destruct H as [H | [lm H]]; [| rewrite H in Hres; discriminate].
      inversion H as [a Hm | t e He Hm | lm v msg' Hl Hm];
        rewrite <- Hm in Hres; simpl in Hres; try discriminate.
      * injection Hres as ->. discriminate.
      * injection Hres as <- <-. exists lm, v.
        split; [reflexivity | split; [exact Hl | reflexivity]].
    + intros e Hres.
      destruct H as [H | [lm H]]; [| rewrite H in Hres; discriminate].
      inversion H as [a Hm | t e' He Hm | lm v msg' Hl Hm];
        rewrite <- Hm in Hres; simpl in Hres; try discriminate.
      injection Hres as ->. discriminate.
  - assert (Hrun : handle_error active self
      = ((persisted self
            (VStr (translate "Something went wrong. Please retry in a while."))
          ++ [LogError title (Traceback active);
              Raise (match active with
                     | Some e => Reraised e
                     | None => RuntimeError
                     end)])%list,
         Raised (match active with
                 | Some e => Reraised e
                 | None => RuntimeError
                 end))).
    { unfold handle_error. rewrite Hexc. simpl negb. cbv iota.
      rewrite (bind_returned _ _ _ _ (set_in_account_returns self _)).
      destruct active; reflexivity. }
    rewrite Hrun. simpl. split.
    + intros ti msg Hres. destruct active; discriminate.
    + intros e Hres. destruct active; [| discriminate].
      injection Hres as ->. reflexivity.
Qed.

(** ** Raising at most once *)











(** ** Short circuit *)




(** ** Payloads of an unexpected shape *)

(** A [message] that is not a dict, on a response that reaches the vendor
    step, makes [content.get] raise. *)
Lemma non_dict_message_crashes active self r top :
  exception self = HTTPError (Some r) ->
  status_code r <> 401 ->
  status_code r <> 403 ->
  str_contains "application/json"
    (headers_get (headers r) "Content-Type" "") = true ->
  json r = Some (VDict top) ->
  truthy (message_of top) = true \/ dict_lookup "exc_type" top = None ->
  match message_of top with VDict _ => False | _ => True end ->
  handle_error active self = raise (AttributeError "get").
Proof.
  intros Hexc H401 H403 Hct Hj Hskip Hshape.
  rewrite (handle_error_json _ _ _ _ Hexc H401 H403 Hct Hj).
  rewrite (handle_frappe_server_error_skips _ _ _ _ Hj Hskip), bind_ret_l.
  destruct (message_of top); try contradiction; reflexivity.
Qed.

(** C1, on the code: on a JSON response (status neither 401 nor 403)
    whose [message] is a non-empty string, no step of the chain matches:
    the four guarded steps pass without any effect.  Yet the run does not
    return: the vendor step raises [AttributeError] on its first [get],
    before any of its conditions is evaluated, and that is how the handler
    leaves. *)
Theorem no_step_matches_yet_the_run_raises active self r top s :
  exception self = HTTPError (Some r) ->
  status_code r <> 401 ->
  status_code r <> 403 ->
  str_contains "application/json"
    (headers_get (headers r) "Content-Type" "") = true ->
  json r = Some (VDict top) ->
  dict_lookup "message" top = Some (VStr s) ->
  s <> "" ->
  handle_auth_error self (Some r) = ret tt
  /\ handle_authorization_error self (Some r) = ret tt
  /\ handle_txt_html_error self (Some r) = ret tt
  /\ handle_frappe_server_error self (VStr s) (Some r) = ret tt
  /\ handle_admin_error self (VStr s) = raise (AttributeError "get")
  /\ handle_error active self = raise (AttributeError "get")
  /\ result (handle_error active self) <> Returned tt.
Proof.
  intros Hexc H401 H403 Hct Hj Hm Hs.
  assert (Hmsg : message_of top = VStr s).
  { unfold message_of. rewrite Hm. reflexivity. }
  assert (Ht : truthy (message_of top) = true).
  { rewrite Hmsg. simpl. destruct (String.eqb_spec s ""); [contradiction |].
    reflexivity. }
  assert (Hrun : handle_error active self = raise (AttributeError "get")).
  { apply (non_dict_message_crashes _ _ r top); try assumption.
    - left. exact Ht.
    - rewrite Hmsg. exact I. }
  repeat split.
  - apply handle_auth_error_skips, H401.
  - apply handle_authorization_error_skips, H403.
  - apply handle_txt_html_error_skips, Hct.
  - apply (handle_frappe_server_error_skips _ _ top); [exact Hj |].
    left. rewrite <- Hmsg. exact Ht.
  - exact Hrun.
  - rewrite Hrun. discriminate.
Qed.

(** C2, on the code: a JSON response with status 500 whose body has a
    plain-string [message], or a null one, and no [exc_type] does not
    return normally: the vendor step calls [get] on the string (or on
    [None]) and the handler leaves with an [AttributeError], having
    logged and persisted nothing. *)
Theorem string_or_null_message_raises_attribute_error active account :
  let run body :=
    handle_error active
      (Samples.handler
         (HTTPError
            (Some (Samples.response 500 Samples.json_headers "" (Some body))))
         account) in
  run (VDict [("message", VStr "Internal Server Error")])
  = ([Raise (AttributeError "get")], Raised (AttributeError "get"))
  /\ run (VDict [("message", VNone)])
     = ([Raise (AttributeError "get")], Raised (AttributeError "get")).
Proof. split; reflexivity. Qed.

(** * Further properties of the handler *)

(** ** The runs of the chain, with their traces *)

Lemma pure_step_run self {A} (m : M A) : pure m -> step_run self m.
Proof. intros [a | e He]; [apply step_run_passes | apply step_run_crashes, He]. Qed.

Lemma step_run_bind self {A B} (m : M A) (k : A -> M B) :
  step_run self m -> (forall a, step_run self (k a)) ->
  step_run self (bind m k).
Proof.
  intros [a | e He | lm e He | lm v msg Hl] Hk.
  - rewrite bind_ret_l. apply Hk.
  - apply step_run_crashes, He.
  - apply step_run_crashes_logged, He.
  - apply step_run_terminates, Hl.
Qed.

Lemma chain_run_bind self {A} (m : M A) (k : A -> M unit) :
  step_run self m -> (forall a, chain_run self (k a)) ->
  chain_run self (bind m k).
Proof.
  intros [a | e He | lm e He | lm v msg Hl] Hk.
  - rewrite bind_ret_l. apply Hk.
  - apply chain_run_crashes, He.
  - apply chain_run_crashes_logged, He.
  - apply chain_run_terminates, Hl.
Qed.

Lemma logged_step_run self lm (k : M unit) :
  after_log self false k -> step_run self (log_error lm ;; k).
Proof.
  intros H. inversion H as [| b e He | b v msg Hl]; subst.
  - apply (step_run_crashes_logged self lm e He).
  - rewrite log_persist_throw. apply step_run_terminates, Hl.
Qed.

Lemma logged_chain_run self lm b (k : M unit) :
  after_log self b k -> chain_run self (log_error lm ;; k).
Proof.
  intros [| b' e He | b' v msg Hl].
  - apply (chain_run_returns self lm).
  - apply (chain_run_crashes_logged self lm e He).
  - rewrite log_persist_throw. apply chain_run_terminates, Hl.
Qed.

Lemma handle_auth_error_run self response :
  step_run self (handle_auth_error self response).
Proof.
  unfold handle_auth_error.
  apply step_run_bind; [apply pure_step_run, pure_get_status_code | intros sc].
  destruct (negb (sc =? 401)); [apply step_run_passes |].
  apply step_run_bind; [apply pure_step_run, pure_get_content | intros body].
  apply logged_step_run, after_log_throw, localised_refl.
Qed.

Lemma handle_authorization_error_run self response :
  step_run self (handle_authorization_error self response).
Proof.
  unfold handle_authorization_error.
  apply step_run_bind; [apply pure_step_run, pure_get_status_code | intros sc].
  destruct (negb (sc =? 403)); [apply step_run_passes |].
  apply step_run_bind; [apply pure_step_run, pure_get_content | intros body].
  apply logged_step_run.
  apply after_log_bind; [apply pure_call_json | intros data].
  apply after_log_bind; [apply pure_dict_get | intros c].
  apply after_log_throw. right. eexists. split; reflexivity.
Qed.

Lemma handle_txt_html_error_run self response :
  step_run self (handle_txt_html_error self response).
Proof.
  unfold handle_txt_html_error.
  apply step_run_bind; [apply pure_step_run, pure_get_headers | intros h].
  destruct (str_contains _ _); [apply step_run_passes |].
  apply step_run_bind; [apply pure_step_run, pure_get_content | intros body].
  apply logged_step_run, after_log_throw, localised_refl.
Qed.

Lemma handle_frappe_server_error_run self c response :
  step_run self (handle_frappe_server_error self c response).
Proof.
  unfold handle_frappe_server_error.
  apply step_run_bind; [apply pure_step_run, pure_call_json | intros data].
  apply step_run_bind.
  { apply pure_step_run.
    destruct (negb (truthy c)); [apply pure_py_in | constructor]. }
  intros [|]; [| apply step_run_passes].
  apply step_run_bind; [apply pure_step_run, pure_get_content | intros body].
  apply logged_step_run.
  apply after_log_bind; [apply pure_dict_get | intros exc].
  apply after_log_throw, localised_refl.
Qed.

Lemma handle_admin_error_run self c :
  chain_run self (handle_admin_error self c).
Proof.
  unfold handle_admin_error.
  apply chain_run_bind;
    [apply pure_step_run, pure_admin_error_data | intros error_data].
  apply (logged_chain_run self (JsonDumps error_data) true).
  apply after_log_bind; [apply pure_dict_get | intros errors].
  destruct (truthy errors).
  - apply after_log_bind; [apply pure_py_iter | intros items].
    apply after_log_bind; [apply pure_error_lines | intros error_list].
    apply after_log_throw, localised_refl.
  - apply after_log_bind; [apply pure_dict_get | intros m].
    destruct (truthy m); [| apply after_log_pass].
    apply after_log_bind; [apply pure_get_msg | intros message].
    apply after_log_throw, localised_refl.
Qed.

Lemma handle_error_run active self response :
  exception self = HTTPError response ->
  chain_run self (handle_error active self).
Proof.
  intros Hexc. rewrite (handle_error_http _ _ _ Hexc).
  apply chain_run_bind; [apply handle_auth_error_run | intros _].
  apply chain_run_bind; [apply handle_authorization_error_run | intros _].
  apply chain_run_bind; [apply handle_txt_html_error_run | intros _].
  apply chain_run_bind; [apply pure_step_run, pure_call_json | intros data].
  apply chain_run_bind; [apply pure_step_run, pure_dict_get | intros c].
  apply chain_run_bind; [apply handle_frappe_server_error_run | intros _].
  apply handle_admin_error_run.
Qed.

(** The run on a failure that is not an [HTTPError], whatever exception
    the interpreter is handling. *)
Lemma handle_error_not_http active self :
  isinstance_HTTPError (exception self) = false ->
  let e := match active with
           | Some a => Reraised a
           | None => RuntimeError
           end in
  handle_error active self
  = ((persisted self
        (VStr (translate "Something went wrong. Please retry in a while."))
      ++ [LogError title (Traceback active); Raise e])%list,
     Raised e).
Proof.
  intros Hnot e. unfold handle_error. rewrite Hnot. simpl negb. cbv iota.
  rewrite (bind_returned _ _ _ _ (set_in_account_returns self _)).
  unfold e. destruct active; reflexivity.
Qed.

(** Every run is one of five traces. *)
Lemma handle_error_traces active self :
  let t := trace (handle_error active self) in
  (exists lm, t = [LogError title lm])
  \/ (exists e, t = [Raise e])
  \/ (exists lm e, t = [LogError title lm; Raise e])
  \/ (exists lm v e, t = LogError title lm :: persisted self v ++ [Raise e])
  \/ (exists lm v e, t = (persisted self v ++ [LogError title lm; Raise e])%list).
Proof.
  destruct (exception self) as [response | name] eqn:Hexc.
  - destruct (handle_error_run active self response Hexc)
      as [lm | e He | lm e He | lm v msg Hl]; simpl.
    + left. eauto.
    + right; left. eauto.
    + right; right; left. eauto.
    + right; right; right; left. eauto.
  - rewrite handle_error_not_http by (rewrite Hexc; reflexivity).
    simpl. right; right; right; right. eauto.
Qed.

Lemma persisted_no_log self v : filter is_log (persisted self v) = [].
Proof. destruct (persisted_cases self v) as [-> | [a ->]]; reflexivity. Qed.

Lemma persisted_one_write self v :
  (length (filter is_set_value (persisted self v)) <= 1)%nat.
Proof.
  destruct (persisted_cases self v) as [-> | [a ->]]; simpl; lia.
Qed.

(** X1: one invocation writes at most one entry to the error log and at
    most one value to the database, and every log entry carries the
    fixed title. *)
Theorem at_most_one_log_entry_and_one_write active self :
  let t := trace (handle_error active self) in
  (length (filter is_log t) <= 1)%nat
  /\ (length (filter is_set_value t) <= 1)%nat
  /\ (forall ti lm, In (LogError ti lm) t -> ti = title).
Proof.
  intros t. unfold t.
  destruct (handle_error_traces active self)
    as [[lm ->] | [[e ->] | [[lm [e ->]] | [[lm [v [e ->]]] | [lm [v [e ->]]]]]]].
  - simpl. repeat split; try lia.
    intros ti lm' [H | []]. congruence.
  - simpl. repeat split; try lia. intros ti lm' [H | []]. discriminate.
  - simpl. repeat split; try lia.
    intros ti lm' [H | [H | []]]; congruence.
  - simpl. rewrite !filter_app, !length_app, persisted_no_log. simpl.
    pose proof (persisted_one_write self v) as Hw.
    repeat split; try lia.
    intros ti lm' [H | H]; [congruence |].
    apply in_app_or in H. destruct H as [H | [H | []]]; [| discriminate].
    destruct (persisted_cases self v) as [Hp | [a Hp]]; rewrite Hp in H;
      simpl in H; intuition discriminate.
  - rewrite !filter_app, !length_app, persisted_no_log. simpl.
    pose proof (persisted_one_write self v) as Hw.
    repeat split; try lia.
    intros ti lm' H. apply in_app_or in H.
    destruct H as [H | [H | [H | []]]]; try congruence.
    destruct (persisted_cases self v) as [Hp | [a Hp]]; rewrite Hp in H;
      simpl in H; intuition discriminate.
Qed.

Lemma persisted_writes self v d n f x :
  In (SetValue d n f x) (persisted self v) ->
  d = "Bank Account" /\ account self = Some n /\ n <> ""
  /\ f = "error_message" /\ x = v
  /\ persisted self v = [SetValue d n f x; Commit].
Proof.
  unfold persisted, set_in_account.
  destruct (account self) as [a |]; [| intros []].
  destruct (String.eqb_spec a ""); [intros [] |].
  simpl. intros [H | [H | []]]; [| discriminate].
  injection H as <- <- <- <-. repeat split; auto.
Qed.

(** X2: whatever the failure, the only database write of the handler is
    to the [error_message] field of the supplied [Bank Account], and the
    commit follows it immediately; in particular without an account
    (none, or the empty name) nothing is written. *)
Theorem writes_only_the_account_and_commits active self d n f x :
  In (SetValue d n f x) (trace (handle_error active self)) ->
  d = "Bank Account" /\ account self = Some n /\ n <> ""
  /\ f = "error_message"
  /\ exists before after,
      trace (handle_error active self)
      = (before ++ SetValue d n f x :: Commit :: after)%list.
Proof.
  destruct (handle_error_traces active self)
    as [[lm ->] | [[e ->] | [[lm [e ->]] | [[lm [v [e ->]]] | [lm [v [e ->]]]]]]].
  - intros [H | []]. discriminate.
  - intros [H | []]. discriminate.
  - intros [H | [H | []]]; discriminate.
  - intros [H | H]; [discriminate |].
    apply in_app_or in H. destruct H as [H | [H | []]]; [| discriminate].
    destruct (persisted_writes _ _ _ _ _ _ H) as (Hd & Ha & Hn & Hf & Hx & Hp).
    repeat split; auto. rewrite Hp.
    exists [LogError title lm], [Raise e]. reflexivity.
  - intros H. apply in_app_or in H.
    destruct H as [H | [H | [H | []]]]; try discriminate.
    destruct (persisted_writes _ _ _ _ _ _ H) as (Hd & Ha & Hn & Hf & Hx & Hp).
    repeat split; auto. rewrite Hp.
    exists [], [LogError title lm; Raise e]. reflexivity.
Qed.

(** X3: when the handler of an [HTTPError] leaves with an exception of
    the interpreter ([AttributeError], [TypeError], [JSONDecodeError]),
    nothing has been written to the account. *)
Theorem a_crash_persists_nothing active self response e :
  exception self = HTTPError response ->
  result (handle_error active self) = Raised e ->
  crash e = true ->
  filter is_set_value (trace (handle_error active self)) = [].
Proof.
  intros Hexc Hres He.
  destruct (handle_error_run active self response Hexc)
    as [lm | e' He' | lm e' He' | lm v msg Hl]; simpl in *.
  - reflexivity.
  - reflexivity.
  - reflexivity.
  - injection Hres as <-. discriminate.
Qed.

(** X4: the handler returns normally only on an [HTTPError], and then
    its whole effect is one log entry: nothing is persisted and nothing
    is raised. *)
Theorem normal_return_only_logs active self :
  result (handle_error active self) = Returned tt ->
  isinstance_HTTPError (exception self) = true
  /\ exists lm, trace (handle_error active self) = [LogError title lm].
Proof.
  destruct (exception self) as [response | name] eqn:Hexc.
  - intros Hres. split; [reflexivity |].
    destruct (handle_error_run active self response Hexc)
      as [lm | e He | lm e He | lm v msg Hl]; simpl in *;
      try discriminate.
    eauto.
  - rewrite handle_error_not_http by (rewrite Hexc; reflexivity).
    simpl. destruct active; discriminate.
Qed.

(** X5: on a failure that is not an [HTTPError] the bare [raise]
    re-raises the exception the interpreter is handling, whether or not it
    is the one given to the handler, and raises [RuntimeError] when none is
    being handled; the account write and the log entry come first in both
    cases. *)
Theorem bare_raise_reraises_the_active_exception active self :
  isinstance_HTTPError (exception self) = false ->
  let e := match active with
           | Some a => Reraised a
           | None => RuntimeError
           end in
  handle_error active self
  = ((persisted self
        (VStr (translate "Something went wrong. Please retry in a while."))
      ++ [LogError title (Traceback active); Raise e])%list,
     Raised e)
  /\ (active = None -> result (handle_error active self) = Raised RuntimeError)
  /\ (forall a, active = Some a ->
      result (handle_error active self) = Raised (Reraised a)).
Proof.
  intros Hnot e. pose proof (handle_error_not_http active self Hnot) as H.
  cbv zeta in H. fold e in H. split; [exact H | split].
  - intros ->. rewrite H. reflexivity.
  - intros a ->. rewrite H. reflexivity.
Qed.

(** ** Step by step *)

(** X6: status 401 is decided on the status alone: whatever the headers
    and the body, even one that is not JSON, the raw body is logged, the
    fixed credentials message is persisted and a [BankingError] with it
    is raised. *)
Theorem unauthorized_is_decided_by_status active self r :
  exception self = HTTPError (Some r) ->
  status_code r = 401 ->
  let message :=
    VStr (translate "Authentication error due to invalid credentials.") in
  handle_error active self
  = (LogError title (RawContent (content r))
       :: persisted self message ++ [Raise (BankingError title message)],
     Raised (BankingError title message)).
Proof.
  intros Hexc H401 message. rewrite (handle_error_http _ _ _ Hexc).
  apply bind_raised. apply handle_auth_error_fires, H401.
Qed.

(** X7: a response whose status is neither 401 nor 403 and whose
    [Content-Type] does not contain [application/json] is never parsed:
    the raw body is logged and the generic retry message is persisted
    and raised, whatever the body. *)
Theorem other_content_type_is_not_parsed active self r :
  exception self = HTTPError (Some r) ->
  status_code r <> 401 ->
  status_code r <> 403 ->
  str_contains "application/json"
    (headers_get (headers r) "Content-Type" "") = false ->
  let message :=
    VStr (translate "Something went wrong. Please retry in a while.") in
  handle_error active self
  = (LogError title (RawContent (content r))
       :: persisted self message ++ [Raise (BankingError title message)],
     Raised (BankingError title message)).
Proof.
  intros Hexc H401 H403 Hct message. rewrite (handle_error_http _ _ _ Hexc).
  rewrite handle_auth_error_skips, bind_ret_l by assumption.
  rewrite handle_authorization_error_skips, bind_ret_l by assumption.
  apply bind_raised. apply handle_txt_html_error_fires, Hct.
Qed.

(** X8: a JSON response (status neither 401 nor 403) whose body cannot
    be parsed raises [JSONDecodeError], and one whose body is not an
    object raises [AttributeError]; in both cases nothing is logged and
    nothing is persisted. *)
Theorem unusable_body_raises_before_any_effect active self r :
  exception self = HTTPError (Some r) ->
  status_code r <> 401 ->
  status_code r <> 403 ->
  str_contains "application/json"
    (headers_get (headers r) "Content-Type" "") = true ->
  (json r = None -> handle_error active self = raise JSONDecodeError)
  /\ (forall v, json r = Some v ->
      match v with VDict _ => False | _ => True end ->
      handle_error active self = raise (AttributeError "get")).
Proof.
  intros Hexc H401 H403 Hct.
  assert (H : handle_error active self
              = (data <- call_json (Some r) ;;
                 content <- dict_get data "message" (VDict []) ;;
                 handle_frappe_server_error self content (Some r) ;;
                 handle_admin_error self content)).
  { rewrite (handle_error_http _ _ _ Hexc).
    rewrite handle_auth_error_skips, bind_ret_l by assumption.
    rewrite handle_authorization_error_skips, bind_ret_l by assumption.
    rewrite handle_txt_html_error_skips, bind_ret_l by assumption.
    reflexivity. }
  rewrite H. split.
  - intros Hj. unfold call_json. rewrite Hj. reflexivity.
  - intros v Hj Hv. rewrite (call_json_parsed _ _ Hj), bind_ret_l.
    destruct v; try contradiction; reflexivity.
Qed.

(** X9: on status 403 the body is parsed after the log entry: a body
    that cannot be parsed, or is not an object, leaves the raw body in the
    log and raises [JSONDecodeError], respectively [AttributeError],
    with nothing persisted. *)
Theorem forbidden_with_unusable_body_logs_then_raises active self r :
  exception self = HTTPError (Some r) ->
  status_code r = 403 ->
  (json r = None ->
   handle_error active self
   = ([LogError title (RawContent (content r)); Raise JSONDecodeError],
      Raised JSONDecodeError))
  /\ (forall v, json r = Some v ->
      match v with VDict _ => False | _ => True end ->
      handle_error active self
      = ([LogError title (RawContent (content r));
          Raise (AttributeError "get")],
         Raised (AttributeError "get"))).
Proof.
  intros Hexc H403. rewrite (handle_error_http _ _ _ Hexc).
  rewrite handle_auth_error_skips, bind_ret_l by lia.
  assert (H : forall e,
            (data <- call_json (Some r) ;;
             c <- dict_get data "message" (VDict []) ;;
             set_in_account self
               (VStr match c with
                     | VStr s => s
                     | _ => "Authorization error due to invalid access."
                     end) ;;
             throw (VStr (translate
                            match c with
                            | VStr s => s
                            | _ => "Authorization error due to invalid access."
                            end)))
            = raise e ->
            (handle_authorization_error self (Some r) ;;
             handle_txt_html_error self (Some r) ;;
             data <- call_json (Some r) ;;
             content <- dict_get data "message" (VDict []) ;;
             handle_frappe_server_error self content (Some r) ;;
             handle_admin_error self content)
            = ([LogError title (RawContent (content r)); Raise e], Raised e)).
  { intros e He. apply bind_raised. unfold handle_authorization_error.
    simpl get_status_code. rewrite bind_ret_l, H403. simpl negb. cbv iota.
    simpl get_content. rewrite bind_ret_l. unfold log_error.
    apply bind_emit_eq. exact He. }
  split.
  - intros Hj. apply H. unfold call_json. rewrite Hj. reflexivity.
  - intros v Hj Hv. apply H. rewrite (call_json_parsed _ _ Hj), bind_ret_l.
    destruct v; try contradiction; reflexivity.
Qed.

(** X10: when [error_data] has no (or an empty) [errors] but a message,
    the vendor step raises a [BankingError] whose message is that of
    [error_data], augmented by the rule of [get_msg], and persists it;
    this is the step that runs on a JSON response whose [message] envelope
    is a non-empty object, even if the body also has an [exc_type]. *)
Theorem single_vendor_message_is_raised active self r top ed m :
  exception self = HTTPError (Some r) ->
  status_code r <> 401 ->
  status_code r <> 403 ->
  str_contains "application/json"
    (headers_get (headers r) "Content-Type" "") = true ->
  json r = Some (VDict top) ->
  truthy (message_of top) = true \/ dict_lookup "exc_type" top = None ->
  admin_error_data (message_of top) = ret (VDict ed) ->
  truthy (field "errors" (VDict ed)) = false ->
  dict_lookup "message" ed = Some (VStr m) ->
  m <> "" ->
  let message := VStr (augmented m (field "code" (VDict ed))) in
  handle_error active self
  = (LogError title (JsonDumps (VDict ed))
       :: persisted self message ++ [Raise (BankingError title message)],
     Raised (BankingError title message)).
Proof.
  intros Hexc H401 H403 Hct Hj Hskip Hed Herrs Hm Hne message.
  rewrite (handle_error_json _ _ _ _ Hexc H401 H403 Hct Hj).
  rewrite (handle_frappe_server_error_skips _ _ _ _ Hj Hskip), bind_ret_l.
  unfold handle_admin_error. rewrite Hed, bind_ret_l.
  unfold log_error. apply bind_emit_eq.
  rewrite dict_get_field, bind_ret_l, Herrs.
  rewrite dict_get_field, bind_ret_l, (field_lookup _ _ _ Hm).
  simpl truthy. destruct (String.eqb_spec m ""); [contradiction |].
  simpl negb. cbv iota.
  rewrite (get_msg_of_string _ _ Hm), bind_ret_l. fold message.
  rewrite (bind_returned _ _ _ _ (set_in_account_returns self message)).
  reflexivity.
Qed.

(** X11: with the consent code, [get_msg] appends to whatever the
    [message] is: on a missing message, a number, a boolean or an object
    the [+=] raises [TypeError], and on a list it extends the list with
    the characters of the instruction. *)
Theorem get_msg_appends_to_any_message items :
  eq_str (field "code" (VDict items)) CONSENT_NOT_GRANTED = true ->
  match field "message" (VDict items) with
  | VStr m => get_msg (VDict items) = ret (VStr (m ++ " " ++ consent_info))
  | VList l =>
      get_msg (VDict items) = ret (VList (l ++ chars (" " ++ consent_info)))
  | _ => get_msg (VDict items) = raise TypeError
  end.
Proof.
  intros Hc. unfold get_msg. rewrite !dict_get_field, !bind_ret_l, Hc.
  destruct (field "message" (VDict items)); reflexivity.
Qed.

Lemma mapM_raises {A B} (f : A -> M B) (g : A -> B) (good : list A)
    (bad : A) (rest : list A) (e : exn) :
  (forall a, In a good -> f a = ret (g a)) ->
  f bad = raise e ->
  mapM f (good ++ bad :: rest) = raise e.
Proof.
  intros Hgood Hbad. induction good as [| a good IH]; simpl.
  - rewrite Hbad. reflexivity.
  - rewrite (Hgood a) by (left; reflexivity). rewrite bind_ret_l.
    rewrite IH by (intros x Hx; apply Hgood; right; exact Hx).
    reflexivity.
Qed.

(** X12: an [errors] list in which an element is not an object (the
    elements before it being error objects) makes the vendor step raise
    [AttributeError] after its log entry; nothing is persisted and no
    [BankingError] is raised. *)
Theorem non_object_error_item_raises self c ed good bad rest :
  admin_error_data c = ret (VDict ed) ->
  dict_lookup "errors" ed = Some (VList (good ++ bad :: rest)) ->
  forallb is_error_object good = true ->
  match bad with VDict _ => False | _ => True end ->
  handle_admin_error self c
  = ([LogError title (JsonDumps (VDict ed)); Raise (AttributeError "get")],
     Raised (AttributeError "get")).
Proof.
  intros Hed Herrs Hgood Hbad. unfold handle_admin_error.
  rewrite Hed, bind_ret_l. unfold log_error. apply bind_emit_eq.
  simpl dict_get. rewrite Herrs, bind_ret_l.
  assert (Ht : truthy (VList (good ++ bad :: rest)) = true).
  { destruct good; reflexivity. }
  rewrite Ht. simpl py_iter. rewrite bind_ret_l.
  rewrite (mapM_raises error_line item_text good bad rest
             (AttributeError "get")).
  - reflexivity.
  - intros a Ha. apply error_line_of_error_object.
    rewrite forallb_forall in Hgood. apply Hgood, Ha.
  - destruct bad; try contradiction; reflexivity.
Qed.

(** X13: a truthy [errors] that is not a list is still iterated: a
    number or [true] raises [TypeError], and a non-empty string or object
    is walked character by character, respectively key by key, so that
    the first [get] on a string raises [AttributeError]; in each case
    only the log entry precedes the exception. *)
Theorem non_list_errors_raises self c ed errors :
  admin_error_data c = ret (VDict ed) ->
  dict_lookup "errors" ed = Some errors ->
  truthy errors = true ->
  match errors with
  | VList _ => True
  | VStr _ | VDict _ =>
      handle_admin_error self c
      = ([LogError title (JsonDumps (VDict ed));
          Raise (AttributeError "get")],
         Raised (AttributeError "get"))
  | _ =>
      handle_admin_error self c
      = ([LogError title (JsonDumps (VDict ed)); Raise TypeError],
         Raised TypeError)
  end.
Proof.
  intros Hed Herrs Ht.
  assert (H : handle_admin_error self c
              = (log_error (JsonDumps (VDict ed)) ;;
                 items <- py_iter errors ;;
                 error_list <- mapM error_line items ;;
                 let message :=
                   translate
                     "Banking Action has failed due to the following error(s):"
                   ++ "<br><ul><li>" ++ join "</li><li>" error_list
                   ++ "</li></ul>" in
                 set_in_account self (VStr message) ;;
                 throw (VStr message))).
  { unfold handle_admin_error. rewrite Hed, bind_ret_l.
    unfold log_error. rewrite !bind_emit. simpl dict_get.
    rewrite Herrs, bind_ret_l, Ht. reflexivity. }
  destruct errors as [| b | n | f | s | l | kvs]; try exact I;
    rewrite H; unfold log_error; try (apply bind_emit_eq; reflexivity).
  - destruct s as [| ch s]; [discriminate |].
    apply bind_emit_eq. reflexivity.
  - destruct kvs as [| [k v] kvs]; [discriminate |].
    apply bind_emit_eq. reflexivity.
Qed.

(** ** The UI entry point *)

Section EntryPointProperties.

Variable json_loads : string -> option value.
Variable Document : Type.
Variable get_doc : string -> string -> string + Document.
Variable get_password : Document -> string -> string + string.
Variable end_session : string -> string -> string + unit.

(** X14: a payload that is not empty and is not the text of a JSON
    object stops the entry point before the session is looked up: it
    raises [JSONDecodeError] (malformed text) or [AttributeError] (a JSON
    list, string, number, ...); nothing is logged and the session is not
    ended. *)
Theorem malformed_payload_leaves_the_session_open error short :
  error <> "" ->
  match json_loads error with Some (VDict _) => False | _ => True end ->
  handle_ui_error json_loads Document get_doc get_password end_session
    error short
  = ([], UIRaised match json_loads error with
                  | None => UIJSONDecodeError
                  | Some _ => UIAttributeError "get"
                  end).
Proof using Type.
  intros Hne Hshape. unfold handle_ui_error.
  destruct (String.eqb_spec error ""); [contradiction |]. simpl negb.
  cbv iota.
  destruct (json_loads error) as [[| | | | | |] |]; try contradiction;
    reflexivity.
Qed.

(** X15: with an empty payload, or the text of a JSON object, and a
    session that is found with its password, the entry point logs the
    payload's [message] (nothing for the empty payload) and then calls
    [end_session] with the password and the short id; it returns or
    raises as that call does. *)
Theorem session_is_ended_after_the_log error short doc sid :
  error = "" \/ (exists items, json_loads error = Some (VDict items)) ->
  get_doc "Klarna Kosma Session" short = inr doc ->
  get_password doc "session_id" = inr sid ->
  handle_ui_error json_loads Document get_doc get_password end_session
    error short
  = ((if String.eqb error "" then []
      else match json_loads error with
           | Some v => [UILogError title (field "message" v)]
           | None => []
           end)
     ++ [EndSession sid short],
     match end_session sid short with
     | inr _ => UIReturned tt
     | inl name => UIRaised (CollaboratorError name)
     end)%list.
Proof using Type.
  intros Hp Hd Hs. unfold handle_ui_error.
  destruct (String.eqb_spec error "") as [He | He]; simpl negb; cbv iota.
  - simpl. rewrite Hd. simpl. rewrite Hs. simpl.
    destruct (end_session sid short) as [name | []]; reflexivity.
  - destruct Hp as [Hp | [items Hp]]; [contradiction |]. rewrite Hp.
    simpl. rewrite Hd. simpl. rewrite Hs. simpl.
    destruct (end_session sid short) as [name | []]; reflexivity.
Qed.

(** X16: whatever the payload and the collaborators do, [end_session]
    is called at most once, and only for the session that was looked up
    under the given short id, with that session's password. *)
Theorem session_is_ended_at_most_once error short :
  let t := fst (handle_ui_error json_loads Document get_doc get_password end_session
    error short) in
  (length (filter is_end_session t) <= 1)%nat
  /\ (forall sid sh,
      In (EndSession sid sh) t ->
      sh = short
      /\ exists doc,
          get_doc "Klarna Kosma Session" short = inr doc
          /\ get_password doc "session_id" = inr sid).
Proof using Type.
  clear bold format1 repr.
  unfold handle_ui_error.
  destruct (negb (String.eqb error ""));
    [destruct (json_loads error) as [[| | | | | |] |] |];
    simpl;
    try (split; [lia | intros sid sh []]);
    (destruct (get_doc "Klarna Kosma Session" short) as [name | doc] eqn:Hd;
     simpl;
     [split; [lia | intros sid sh H; intuition discriminate] |]);
    (destruct (get_password doc "session_id") as [name | sid'] eqn:Hs;
     simpl;
     [split; [lia | intros sid sh H; intuition discriminate] |]);
    (destruct (end_session sid' short) as [name | []]; simpl;
     (split; [lia |]);
     intros sid sh H;
     repeat (destruct H as [H | H]; try discriminate; try contradiction);
     injection H as <- <-; eauto).
Qed.

End EntryPointProperties.

End Handler.

(** * Concrete runs *)

Import Samples.

(** The handler built while [e] is being handled, with no translation
    registered. *)
Local Abbreviation run e a :=
  (new_ExceptionHandler plain strong subst0 opaque_repr (Some e) e a).


(** The failing input of C1: status 500, JSON, a plain-string message. *)
Lemma no_step_matches_yet_the_run_raises_witness :
  handle_frappe_server_error plain
    (handler (HTTPError (Some text_message)) (Some account_name))
    (VStr "Internal Server Error") (Some text_message)
  = ret tt
  /\ run (HTTPError (Some text_message)) (Some account_name)
     = ([Raise (AttributeError "get")], Raised (AttributeError "get")).
Proof.
  pose proof (no_step_matches_yet_the_run_raises plain strong subst0
                opaque_repr (Some (HTTPError (Some text_message)))
                (handler (HTTPError (Some text_message)) (Some account_name))
                text_message
                [("message", VStr "Internal Server Error")]
                "Internal Server Error"
                eq_refl ltac:(simpl; lia) ltac:(simpl; lia) eq_refl eq_refl
                eq_refl ltac:(discriminate))
    as (_ & _ & _ & Hserver & _ & Hrun & _).
  split; [exact Hserver | exact Hrun].
Defined.

(** C3 as stated fails: an [HTTPError] built without a response carries
    none, and the handler does not re-raise it: reading [status_code] of
    [None] raises an [AttributeError].  Nor is a failure without a
    response re-raised when the handler runs outside the [except] block
    that caught it: the bare [raise] finds nothing to re-raise. *)
Lemma http_error_without_response_is_not_reraised :
  run (HTTPError None) (Some account_name)
  = ([Raise (AttributeError "status_code")],
     Raised (AttributeError "status_code"))
  /\ result (handle_error plain strong subst0 opaque_repr None
               (handler timeout None))
     = Raised RuntimeError
  /\ ~ (forall e a,
         http_response e = None ->
         result (run e a) = Raised (Reraised e)).
Proof.
  split; [reflexivity | split; [reflexivity |]].
  intros H. specialize (H (HTTPError None) (Some account_name) eq_refl).
  discriminate H.
Qed.

Lemma non_http_failure_is_reraised_witness :
  run timeout (Some account_name)
  = ([SetValue "Bank Account" "ACC-0001" "error_message"
        (VStr "Something went wrong. Please retry in a while.");
      Commit;
      LogError "Banking Error" (Traceback (Some timeout));
      Raise (Reraised timeout)],
     Raised (Reraised timeout))
  /\ run timeout None
     = ([LogError "Banking Error" (Traceback (Some timeout));
         Raise (Reraised timeout)],
        Raised (Reraised timeout)).
Proof.
  split.
  - exact (proj1 (non_http_failure_is_reraised plain strong subst0
                    opaque_repr (Some timeout)
                    (handler timeout (Some account_name)) timeout
                    eq_refl eq_refl eq_refl)).
  - exact (proj1 (non_http_failure_is_reraised plain strong subst0
                    opaque_repr (Some timeout) (handler timeout None) timeout
                    eq_refl eq_refl eq_refl)).
Defined.

(** C4 as stated fails: on a 401 with an account, the write to the
    account comes before the raise and nothing comes after it. *)
Lemma account_is_written_before_the_raise :
  trace (run (HTTPError (Some unauthorized)) (Some account_name))
  = [LogError "Banking Error" (RawContent "raw body");
     SetValue "Bank Account" "ACC-0001" "error_message"
       (VStr "Authentication error due to invalid credentials.");
     Commit;
     Raise (BankingError "Banking Error"
              (VStr "Authentication error due to invalid credentials."))]
  /\ ~ (forall r a,
         status_code r = 401 -> a <> "" ->
         let t := trace (run (HTTPError (Some r)) (Some a)) in
         occurs_before is_log is_raise t = true
         /\ occurs_before is_raise is_set_value t = true).
Proof.
  split; [reflexivity |].
  intros H.
  destruct (H unauthorized account_name eq_refl ltac:(discriminate))
    as [_ H'].
  discriminate H'.
Qed.

Lemma log_and_persist_precede_the_raise_witness :
  (exists lm v,
      trace (run (HTTPError (Some unauthorized)) (Some account_name))
      = LogError "Banking Error" lm
          :: [SetValue "Bank Account" "ACC-0001" "error_message" v; Commit]
          ++ [Raise (BankingError "Banking Error"
                       (VStr "Authentication error due to invalid credentials."))])
  /\ trace (run timeout (Some account_name))
     = [SetValue "Bank Account" "ACC-0001" "error_message"
          (VStr "Something went wrong. Please retry in a while.");
        Commit;
        LogError "Banking Error" (Traceback (Some timeout));
        Raise (Reraised timeout)].
Proof.
  split.
  - destruct (proj1 (log_and_persist_precede_the_raise plain strong subst0
                       opaque_repr (Some (HTTPError (Some unauthorized)))
                       (handler (HTTPError (Some unauthorized))
                          (Some account_name)))
                _ _ eq_refl) as [lm [v [_ [_ H]]]].
    exists lm, v. exact H.
  - exact (proj1 (proj2 (log_and_persist_precede_the_raise plain strong
                           subst0 opaque_repr (Some timeout)
                           (handler timeout (Some account_name))))
             timeout eq_refl).
Defined.

(** C5 as stated fails: a 403 whose body is not JSON raises no
    [BankingError] at all, and where a translation is registered for the
    body's message the raised text is the translation, not the message
    (which is what is persisted). *)
Lemma forbidden_page_raises_no_banking_error :
  run (HTTPError (Some forbidden_page)) (Some account_name)
  = ([LogError "Banking Error" (RawContent "raw body");
      Raise JSONDecodeError],
     Raised JSONDecodeError)
  /\ new_ExceptionHandler catalog strong subst0 opaque_repr
       (Some (HTTPError (Some forbidden_text)))
       (HTTPError (Some forbidden_text)) (Some account_name)
     = ([LogError "Banking Error" (RawContent "raw body");
         SetValue "Bank Account" "ACC-0001" "error_message"
           (VStr "Custom text");
         Commit;
         Raise (BankingError "Banking Error" (VStr "Eigener Text"))],
        Raised (BankingError "Banking Error" (VStr "Eigener Text")))
  /\ ~ (forall r a,
         status_code r = 403 ->
         exists ti msg,
           result (run (HTTPError (Some r)) a)
           = Raised (BankingError ti msg)).
Proof.
  split; [reflexivity | split; [reflexivity |]].
  intros H.
  destruct (H forbidden_page (Some account_name) eq_refl) as [ti [msg H']].
  discriminate H'.
Qed.

Lemma forbidden_message_is_body_message_witness :
  run (HTTPError (Some forbidden_text)) (Some account_name)
  = ([LogError "Banking Error" (RawContent "raw body");
      SetValue "Bank Account" "ACC-0001" "error_message" (VStr "Custom text");
      Commit;
      Raise (BankingError "Banking Error" (VStr "Custom text"))],
     Raised (BankingError "Banking Error" (VStr "Custom text")))
  /\ result (run (HTTPError (Some forbidden_object)) None)
     = Raised (BankingError "Banking Error"
                 (VStr "Authorization error due to invalid access.")).
Proof.
  split.
  - exact (proj1 (forbidden_message_is_body_message plain strong subst0
                    opaque_repr (Some (HTTPError (Some forbidden_text)))
                    (handler (HTTPError (Some forbidden_text))
                       (Some account_name))
                    forbidden_text [("message", VStr "Custom text")]
                    eq_refl eq_refl eq_refl)).
  - exact (proj1 (proj2 (forbidden_message_is_body_message plain strong
                    subst0 opaque_repr (Some (HTTPError (Some forbidden_object)))
                    (handler (HTTPError (Some forbidden_object)) None)
                    forbidden_object [("message", VDict [("foo", VInt 1)])]
                    eq_refl eq_refl eq_refl)) eq_refl).
Defined.

(** C6 as stated fails: an [exception] that is present but empty is not
    the raised message; the fixed retry text is. *)
Lemma empty_exception_is_replaced :
  result (run (HTTPError (Some server_crash_empty)) None)
  = Raised (BankingError "Banking Error"
              (VStr "The server has errored. Please retry in some time."))
  /\ ~ (forall r top exc,
         status_code r <> 401 -> status_code r <> 403 ->
         str_contains "application/json"
           (headers_get (headers r) "Content-Type" "") = true ->
         json r = Some (VDict top) ->
         truthy (message_of top) = false ->
         dict_lookup "exc_type" top <> None ->
         dict_lookup "exception" top = Some exc ->
         result (run (HTTPError (Some r)) None)
         = Raised (BankingError "Banking Error" exc)).
Proof.
  split; [reflexivity |].
  intros H.
  specialize (H server_crash_empty
                [("message", VNone); ("exc_type", VStr "SomeError");
                 ("exception", VStr "")]
                (VStr "")).
  simpl in H.
  specialize (H ltac:(lia) ltac:(lia) eq_refl eq_refl eq_refl
                ltac:(discriminate) eq_refl).
  discriminate H.
Qed.

Lemma server_error_message_is_exception_witness :
  run (HTTPError (Some server_crash)) (Some account_name)
  = ([LogError "Banking Error" (RawContent "raw body");
      SetValue "Bank Account" "ACC-0001" "error_message" (VStr "boom");
      Commit;
      Raise (BankingError "Banking Error" (VStr "boom"))],
     Raised (BankingError "Banking Error" (VStr "boom"))).
Proof.
  exact (proj1 (server_error_message_is_exception plain strong subst0
                  opaque_repr (Some (HTTPError (Some server_crash)))
                  (handler (HTTPError (Some server_crash)) (Some account_name))
                  server_crash
                  [("message", VNone); ("exc_type", VStr "SomeError");
                   ("exception", VStr "boom")]
                  eq_refl ltac:(simpl; lia) ltac:(simpl; lia)
                  eq_refl eq_refl eq_refl ltac:(discriminate))).
Defined.

(** C7 as stated fails: a non-empty [errors] list with a string among
    its elements raises [AttributeError], not a [BankingError]. *)
Lemma string_error_item_raises_no_banking_error :
  result (handle_admin_error plain strong subst0 opaque_repr
            (handler timeout None) mixed_errors_envelope)
  = Raised (AttributeError "get")
  /\ ~ (forall c ed errs,
         admin_error_data c = ret (VDict ed) ->
         dict_lookup "errors" ed = Some (VList errs) ->
         errs <> [] ->
         exists ti msg,
           result (handle_admin_error plain strong subst0 opaque_repr
                     (handler timeout None) c)
           = Raised (BankingError ti msg)).
Proof.
  split; [reflexivity |].
  intros H.
  destruct (H mixed_errors_envelope
              [("errors",
                VList [VDict [("location", VStr "A"); ("message", VStr "m1")];
                       VStr "m2"])]
              [VDict [("location", VStr "A"); ("message", VStr "m1")];
               VStr "m2"]
              eq_refl eq_refl ltac:(discriminate)) as [ti [msg H']].
  discriminate H'.
Qed.

Lemma errors_become_an_html_list_witness :
  result (handle_admin_error plain strong subst0 opaque_repr
            (handler timeout None) bare_location_envelope)
  = Raised (BankingError "Banking Error"
              (VStr "Banking Action has failed due to the following error(s):<br><ul><li>A - None</li></ul>"))
  /\
  handle_admin_error plain strong subst0 opaque_repr
    (handler timeout (Some account_name)) two_errors_envelope
  = (let message :=
       VStr "Banking Action has failed due to the following error(s):<br><ul><li>A - m1</li><li>B - m2</li></ul>" in
     ([LogError "Banking Error" (JsonDumps (VDict [("errors", VList two_errors)]));
       SetValue "Bank Account" "ACC-0001" "error_message" message;
       Commit;
       Raise (BankingError "Banking Error" message)],
      Raised (BankingError "Banking Error" message))).
Proof.
  split.
  - exact (f_equal snd
             (proj1 (errors_become_an_html_list plain strong subst0
                       opaque_repr (handler timeout None)
                       bare_location_envelope
                       [("errors", VList [VDict [("location", VStr "A")]])]
                       [VDict [("location", VStr "A")]]
                       eq_refl eq_refl ltac:(discriminate) eq_refl))).
  - exact (proj1 (errors_become_an_html_list plain strong subst0 opaque_repr
                    (handler timeout (Some account_name)) two_errors_envelope
                    [("errors", VList two_errors)] two_errors
                    eq_refl eq_refl ltac:(discriminate) eq_refl)).
Defined.

Lemma get_msg_appends_instruction_witness :
  get_msg plain strong subst0 (VDict plain_error)
  = ret (VStr "limit reached")
  /\ get_msg plain strong subst0 (VDict consent_error)
     = ret (VStr ("consent missing " ++ instruction))
  /\ str_contains "consent missing" ("consent missing " ++ instruction) = true
  /\ str_contains instruction ("consent missing " ++ instruction) = true.
Proof.
  split.
  - exact (proj1 (get_msg_appends_instruction plain strong subst0
                    plain_error "limit reached" eq_refl) eq_refl).
  - exact (proj2 (get_msg_appends_instruction plain strong subst0
                    consent_error "consent missing" eq_refl) eq_refl).
Defined.

(** C9 as stated fails: an [error] key holding an empty object is not
    used; [data] is consulted and its message is raised. *)
Lemma empty_error_falls_back_to_data :
  admin_error_data (VDict empty_error_with_data)
  = ret (VDict [("message", VStr "x")])
  /\ result (handle_admin_error plain strong subst0 opaque_repr
               (handler timeout None) (VDict empty_error_with_data))
     = Raised (BankingError "Banking Error" (VStr "x"))
  /\ ~ (forall items e,
         dict_lookup "error" items = Some e ->
         admin_error_data (VDict items) = ret e).
Proof.
  split; [reflexivity | split; [reflexivity |]].
  intros H. specialize (H empty_error_with_data (VDict []) eq_refl).
  discriminate H.
Qed.

Lemma missing_content_type_is_not_json_witness :
  run (HTTPError (Some bare_gateway)) (Some account_name)
  = ([LogError "Banking Error" (RawContent "raw body");
      SetValue "Bank Account" "ACC-0001" "error_message"
        (VStr "Something went wrong. Please retry in a while.");
      Commit;
      Raise (BankingError "Banking Error"
               (VStr "Something went wrong. Please retry in a while."))],
     Raised (BankingError "Banking Error"
               (VStr "Something went wrong. Please retry in a while."))).
Proof.
  exact (proj1 (missing_content_type_is_not_json plain strong subst0
                  opaque_repr (Some (HTTPError (Some bare_gateway)))
                  (handler (HTTPError (Some bare_gateway)) (Some account_name))
                  bare_gateway
                  eq_refl ltac:(simpl; lia) ltac:(simpl; lia) eq_refl)).
Defined.

(** * Concrete runs of the further properties *)

Lemma at_most_one_log_entry_and_one_write_witness :
  title plain = "Banking Error"
  /\ (length (filter is_log
               (trace (run (HTTPError (Some unauthorized))
                         (Some account_name)))) <= 1)%nat.
Proof.
  pose proof (at_most_one_log_entry_and_one_write plain strong subst0
                opaque_repr (Some (HTTPError (Some unauthorized)))
                (handler (HTTPError (Some unauthorized)) (Some account_name)))
    as H.
  cbv zeta in H. destruct H as [H1 [_ H3]]. split.
  - symmetry. apply (H3 "Banking Error" (RawContent "raw body")).
    simpl. left. reflexivity.
  - exact H1.
Defined.

Lemma writes_only_the_account_and_commits_witness :
  account (handler (HTTPError (Some unauthorized)) (Some account_name))
  = Some "ACC-0001"
  /\ exists before after,
      trace (run (HTTPError (Some unauthorized)) (Some account_name))
      = (before
         ++ SetValue "Bank Account" "ACC-0001" "error_message"
              (VStr "Authentication error due to invalid credentials.")
         :: Commit :: after)%list.
Proof.
  destruct (writes_only_the_account_and_commits plain strong subst0
              opaque_repr (Some (HTTPError (Some unauthorized)))
              (handler (HTTPError (Some unauthorized)) (Some account_name))
              "Bank Account" "ACC-0001" "error_message"
              (VStr "Authentication error due to invalid credentials."))
    as (_ & Ha & _ & _ & Ht).
  - simpl. right. left. reflexivity.
  - split; [exact Ha | exact Ht].
Defined.

Lemma a_crash_persists_nothing_witness :
  filter is_set_value
    (trace (run (HTTPError (Some forbidden_page)) (Some account_name)))
  = [].
Proof.
  exact (a_crash_persists_nothing plain strong subst0 opaque_repr
           (Some (HTTPError (Some forbidden_page)))
           (handler (HTTPError (Some forbidden_page)) (Some account_name))
           (Some forbidden_page) JSONDecodeError eq_refl eq_refl eq_refl).
Defined.

Lemma normal_return_only_logs_witness :
  exists lm,
    trace (run (HTTPError (Some unrecognised)) (Some account_name))
    = [LogError "Banking Error" lm].
Proof.
  exact (proj2 (normal_return_only_logs plain strong subst0 opaque_repr
                  (Some (HTTPError (Some unrecognised)))
                  (handler (HTTPError (Some unrecognised))
                     (Some account_name))
                  eq_refl)).
Defined.

(** A handler built for one failure while another is being handled, and
    one built outside any [except] block. *)
Lemma bare_raise_reraises_the_active_exception_witness :
  result (handle_error plain strong subst0 opaque_repr
            (Some (HTTPError None)) (handler timeout None))
  = Raised (Reraised (HTTPError None))
  /\ result (handle_error plain strong subst0 opaque_repr
               None (handler timeout None))
     = Raised RuntimeError.
Proof.
  split.
  - exact (proj2 (proj2 (bare_raise_reraises_the_active_exception plain
                           strong subst0 opaque_repr
                           (Some (HTTPError None)) (handler timeout None)
                           eq_refl))
             (HTTPError None) eq_refl).
  - exact (proj1 (proj2 (bare_raise_reraises_the_active_exception plain
                           strong subst0 opaque_repr
                           None (handler timeout None) eq_refl))
             eq_refl).
Defined.

Lemma unauthorized_is_decided_by_status_witness :
  run (HTTPError (Some unauthorized)) None
  = ([LogError "Banking Error" (RawContent "raw body");
      Raise (BankingError "Banking Error"
               (VStr "Authentication error due to invalid credentials."))],
     Raised (BankingError "Banking Error"
               (VStr "Authentication error due to invalid credentials."))).
Proof.
  exact (unauthorized_is_decided_by_status plain strong subst0 opaque_repr
           (Some (HTTPError (Some unauthorized)))
           (handler (HTTPError (Some unauthorized)) None)
           unauthorized eq_refl eq_refl).
Defined.

Lemma other_content_type_is_not_parsed_witness :
  run (HTTPError (Some gateway_page)) None
  = ([LogError "Banking Error" (RawContent "raw body");
      Raise (BankingError "Banking Error"
               (VStr "Something went wrong. Please retry in a while."))],
     Raised (BankingError "Banking Error"
               (VStr "Something went wrong. Please retry in a while."))).
Proof.
  exact (other_content_type_is_not_parsed plain strong subst0 opaque_repr
           (Some (HTTPError (Some gateway_page)))
           (handler (HTTPError (Some gateway_page)) None)
           gateway_page eq_refl ltac:(simpl; lia) ltac:(simpl; lia) eq_refl).
Defined.

Lemma unusable_body_raises_before_any_effect_witness :
  run (HTTPError (Some truncated_body)) (Some account_name)
  = ([Raise JSONDecodeError], Raised JSONDecodeError).
Proof.
  exact (proj1 (unusable_body_raises_before_any_effect plain strong subst0
                  opaque_repr (Some (HTTPError (Some truncated_body)))
                  (handler (HTTPError (Some truncated_body))
                     (Some account_name))
                  truncated_body eq_refl ltac:(simpl; lia) ltac:(simpl; lia)
                  eq_refl)
           eq_refl).
Defined.

Lemma forbidden_with_unusable_body_logs_then_raises_witness :
  run (HTTPError (Some forbidden_page)) (Some account_name)
  = ([LogError "Banking Error" (RawContent "raw body");
      Raise JSONDecodeError],
     Raised JSONDecodeError).
Proof.
  exact (proj1 (forbidden_with_unusable_body_logs_then_raises plain strong
                  subst0 opaque_repr (Some (HTTPError (Some forbidden_page)))
                  (handler (HTTPError (Some forbidden_page))
                     (Some account_name))
                  forbidden_page eq_refl eq_refl)
           eq_refl).
Defined.

Lemma single_vendor_message_is_raised_witness :
  result (run (HTTPError (Some vendor_message)) None)
  = Raised (BankingError "Banking Error"
              (VStr ("consent missing " ++ instruction))).
Proof.
  exact (f_equal snd
           (single_vendor_message_is_raised plain strong subst0 opaque_repr
              (Some (HTTPError (Some vendor_message)))
              (handler (HTTPError (Some vendor_message)) None)
              vendor_message
              [("message", VDict [("error", VDict consent_error)]);
               ("exc_type", VStr "SomeError")]
              consent_error "consent missing"
              eq_refl ltac:(simpl; lia) ltac:(simpl; lia) eq_refl eq_refl
              (or_introl eq_refl) eq_refl eq_refl eq_refl
              ltac:(discriminate))).
Defined.

Lemma get_msg_appends_to_any_message_witness :
  get_msg plain strong subst0 (VDict consent_without_message)
  = raise TypeError.
Proof.
  exact (get_msg_appends_to_any_message plain strong subst0
           consent_without_message eq_refl).
Defined.

Lemma non_object_error_item_raises_witness :
  handle_admin_error plain strong subst0 opaque_repr
    (handler timeout (Some account_name)) mixed_errors_envelope
  = ([LogError "Banking Error"
        (JsonDumps
           (VDict [("errors",
                    VList [VDict [("location", VStr "A");
                                  ("message", VStr "m1")];
                           VStr "m2"])]));
      Raise (AttributeError "get")],
     Raised (AttributeError "get")).
Proof.
  exact (non_object_error_item_raises plain strong subst0 opaque_repr
           (handler timeout (Some account_name)) mixed_errors_envelope
           [("errors",
             VList [VDict [("location", VStr "A"); ("message", VStr "m1")];
                    VStr "m2"])]
           [VDict [("location", VStr "A"); ("message", VStr "m1")]]
           (VStr "m2") [] eq_refl eq_refl eq_refl I).
Defined.

Lemma non_list_errors_raises_witness :
  handle_admin_error plain strong subst0 opaque_repr
    (handler timeout (Some account_name)) text_errors_envelope
  = ([LogError "Banking Error"
        (JsonDumps (VDict [("errors", VStr "failed")]));
      Raise (AttributeError "get")],
     Raised (AttributeError "get")).
Proof.
  exact (non_list_errors_raises plain strong subst0 opaque_repr
           (handler timeout (Some account_name)) text_errors_envelope
           [("errors", VStr "failed")] (VStr "failed")
           eq_refl eq_refl eq_refl).
Defined.

Lemma malformed_payload_leaves_the_session_open_witness :
  handle_ui_error plain loads string sessions passwords ends "list" "short-1"
  = ([], UIRaised (UIAttributeError "get"))
  /\ handle_ui_error plain loads string sessions passwords ends
       "not json" "short-1"
     = ([], UIRaised UIJSONDecodeError).
Proof.
  split.
  - exact (malformed_payload_leaves_the_session_open plain loads string
             sessions passwords ends "list" "short-1"
             ltac:(discriminate) I).
  - exact (malformed_payload_leaves_the_session_open plain loads string
             sessions passwords ends "not json" "short-1"
             ltac:(discriminate) I).
Defined.

Lemma session_is_ended_after_the_log_witness :
  handle_ui_error plain loads string sessions passwords ends
    "object" "short-1"
  = ([UILogError "Banking Error" (VStr "popup closed");
      EndSession "secret-of-short-1" "short-1"],
     UIReturned tt)
  /\ handle_ui_error plain loads string sessions passwords ends "" "short-1"
     = ([EndSession "secret-of-short-1" "short-1"], UIReturned tt).
Proof.
  split.
  - exact (session_is_ended_after_the_log plain loads string sessions
             passwords ends "object" "short-1" "short-1" "secret-of-short-1"
             (or_intror (ex_intro _ [("message", VStr "popup closed")] eq_refl))
             eq_refl eq_refl).
  - exact (session_is_ended_after_the_log plain loads string sessions
             passwords ends "" "short-1" "short-1" "secret-of-short-1"
             (or_introl eq_refl) eq_refl eq_refl).
Defined.

Lemma session_is_ended_at_most_once_witness :
  exists doc,
    sessions "Klarna Kosma Session" "short-1" = inr doc
    /\ passwords doc "session_id" = inr "secret-of-short-1".
Proof.
  apply (proj2 (session_is_ended_at_most_once plain loads string sessions
                  passwords ends "object" "short-1")
           "secret-of-short-1" "short-1").
  simpl. right. left. reflexivity.
Defined.
